(** * Image extraction pipeline of the medical image classifier

    A shallow embedding of [utils/extract_images.py]: the PDF extractor,
    the URL resolver with its three routes (direct image link, image-like
    pattern, web page) and the download-and-convert step.  The libraries
    the module calls (PyMuPDF, requests, BeautifulSoup, Pillow) are kept
    abstract in a record of externals; Python exceptions are values of a
    result type; the network and the console are an explicit world that
    every effectful function threads. *)

From Stdlib Require Import List String Ascii ZArith Bool Lia Arith.
From Stdlib.Strings Require Import Byte.
Import ListNotations.
Local Open Scope string_scope.
Local Open Scope list_scope.

(* ================================================================== *)
(** ** Python [str] operations used by the module

    A [str] is modelled by [string]; each character stands for the code
    point of the same number, so the model covers the Latin-1 range, which
    contains every character a URL may hold. *)

Module PyStr.

Definition code (c : ascii) : nat := nat_of_ascii c.

(** [str.isspace] on one character of the Latin-1 range. *)
Definition isspace (c : ascii) : bool :=
  let n := code c in
  (((9 <=? n) && (n <=? 13)) || ((28 <=? n) && (n <=? 32))
   || (n =? 133) || (n =? 160))%nat.

(** The characters that [str.lower] changes in the Latin-1 range. *)
Definition isupper (c : ascii) : bool :=
  let n := code c in
  (((65 <=? n) && (n <=? 90))
   || ((192 <=? n) && (n <=? 222) && negb (n =? 215)))%nat.

Definition lower_char (c : ascii) : ascii :=
  if isupper c then ascii_of_nat (code c + 32) else c.

(** [s.lower()] *)
Fixpoint lower (s : string) : string :=
  match s with
  | EmptyString => EmptyString
  | String c r => String (lower_char c) (lower r)
  end.

(** [s.lstrip()] *)
Fixpoint lstrip (s : string) : string :=
  match s with
  | EmptyString => EmptyString
  | String c r => if isspace c then lstrip r else s
  end.

(** [s.rstrip()] *)
Fixpoint rstrip (s : string) : string :=
  match s with
  | EmptyString => EmptyString
  | String c r =>
      match rstrip r with
      | EmptyString => if isspace c then EmptyString else String c EmptyString
      | r' => String c r'
      end
  end.

(** [s.strip()] *)
Definition strip (s : string) : string := lstrip (rstrip s).

(** [s.startswith(p)] *)
Definition startswith (s p : string) : bool := String.prefix p s.

(** [s.endswith(suf)] with one suffix. *)
Fixpoint endswith (s suf : string) : bool :=
  if String.eqb s suf then true
  else match s with
       | EmptyString => false
       | String _ r => endswith r suf
       end.

(** [s.endswith((suf1, suf2, ...))] with a tuple of suffixes. *)
Definition endswith_any (s : string) (sufs : list string) : bool :=
  existsb (endswith s) sufs.

(** [sub in s] *)
Fixpoint contains (s sub : string) : bool :=
  String.prefix sub s
  || match s with
     | EmptyString => false
     | String _ r => contains r sub
     end.

(** [s.split(sep)] for a separator of one character. *)
Fixpoint split (sep : ascii) (s : string) : list string :=
  match s with
  | EmptyString => [EmptyString]
  | String c r =>
      if Ascii.eqb c sep then EmptyString :: split sep r
      else match split sep r with
           | [] => [String c EmptyString]
           | h :: t => String c h :: t
           end
  end.

(** [sep.join(parts)] *)
Definition join (sep : string) (parts : list string) : string :=
  String.concat sep parts.

(** Every character of [s] is white space. *)
Fixpoint all_space (s : string) : bool :=
  match s with
  | EmptyString => true
  | String c r => isspace c && all_space r
  end.

(** [c] does not occur in [s]. *)
Fixpoint lacks (c : ascii) (s : string) : bool :=
  match s with
  | EmptyString => true
  | String d r => negb (Ascii.eqb d c) && lacks c r
  end.

End PyStr.

(* ================================================================== *)
(** ** Exceptions and results *)

(** The exception classes the called libraries raise. *)
Inductive Exn : Type :=
| FileNotFoundError            (* fitz.open: no such file *)
| FileDataError                (* fitz.open: not a document *)
| ValueError                   (* PyMuPDF: bad xref *)
| KeyError (key : string)      (* dict subscript *)
| ConnectionError              (* requests: host unreachable *)
| ReadTimeout                  (* requests: timeout elapsed *)
| MissingSchema                (* requests: URL without a scheme *)
| HTTPError (status : Z)       (* Response.raise_for_status *)
| UnidentifiedImageError       (* PIL.Image.open *)
| OSError.                     (* PIL: convert or save failed *)

Inductive Result (A : Type) : Type :=
| Ok (a : A)
| Raise (e : Exn).
Arguments Ok {A} a.
Arguments Raise {A} e.

Definition bytes : Type := list byte.

(* ================================================================== *)
(** ** The document library (PyMuPDF) *)

(** One tuple of [page.get_images(full=True)]; the code reads item 0. *)
Record ImgTuple : Type := {
  xref : Z;
  smask : Z;
  img_width : Z;
  img_height : Z;
  bpc : Z;
  colorspace : string;
  alt_colorspace : string;
  img_name : string;
  img_filter : string;
  referencer : Z
}.

(** The dictionary [doc.extract_image(xref)] returns. *)
Record BaseImage : Type := {
  ext : string;
  image : bytes
}.

Record Page : Type := {
  get_images : Result (list ImgTuple)
}.

(** An open document: its pages in order and its image store.  The
    library answers an xref that is no image with the empty dictionary,
    here [None]. *)
Record Document : Type := {
  pages : list Page;
  extract_image : Z -> Result (option BaseImage)
}.

(** [base_image["image"]] *)
Definition getitem_image (d : option BaseImage) : Result bytes :=
  match d with
  | Some b => Ok (image b)
  | None => Raise (KeyError "image")
  end.

(* ================================================================== *)
(** ** The HTTP client (requests) *)

Record Request : Type := {
  req_url : string;
  req_timeout : option Z;
  req_headers : list (string * string)
}.

Record Response : Type := {
  status_code : Z;
  content : bytes;
  text : string
}.

(** [resp.raise_for_status()]: client and server error codes raise. *)
Definition raise_for_status (resp : Response) : Result unit :=
  if ((400 <=? status_code resp) && (status_code resp <? 600))%Z
  then Raise (HTTPError (status_code resp))
  else Ok tt.

(* ================================================================== *)
(** ** The HTML parser (BeautifulSoup) *)

Record Tag : Type := {
  attrs : list (string * string)
}.

(** [tag.get(name)] *)
Fixpoint tag_get_attr (l : list (string * string)) (name : string)
  : option string :=
  match l with
  | [] => None
  | (k, v) :: r => if String.eqb k name then Some v else tag_get_attr r name
  end.

Definition tag_get (t : Tag) (name : string) : option string :=
  tag_get_attr (attrs t) name.

(* ================================================================== *)
(** ** The image library (Pillow) *)

Inductive Mode : Type := Mode1 | ModeL | ModeP | ModeRGB | ModeRGBA | ModeCMYK.

Inductive Format : Type := JPEG | PNG | GIF | BMP | TIFF | WEBP.

Record Bitmap : Type := {
  mode : Mode;
  width : Z;
  height : Z;
  pixels : list Z
}.

Definition channels (m : Mode) : Z :=
  match m with
  | Mode1 | ModeL | ModeP => 1
  | ModeRGB => 3
  | ModeRGBA | ModeCMYK => 4
  end.

(* ================================================================== *)
(** ** Externals, world and the effect monad *)

(** Everything the module calls and does not define.  The network answers
    a request as a function of the requests already sent, so a host may
    answer the same request differently at different moments. *)
Record Externals : Type := {
  fitz_open : string -> Result Document;
  respond : list Request -> Request -> Result Response;
  find_all_img : string -> list Tag;
  Image_open : bytes -> Result Bitmap;
  Image_convert : Bitmap -> Mode -> Result Bitmap;
  Image_save : Bitmap -> Format -> Result bytes
}.

(** The lines the module prints. *)
Inductive LogLine : Type :=
| DirectImageDetected (url : string)
| ImageLikeDetected (url : string)
| FailedDirectTryingWebpage
| FetchingHtml (url : string)
| ErrorProcessingImage (src : string) (e : Exn)
| ErrorFetchingWebpage (e : Exn)
| FoundImages (n : nat)
| CouldNotOpenConvert (url : string) (e : Exn).

(** The world: the requests sent so far, oldest first, and the console. *)
Record World : Type := {
  sent : list Request;
  stdout : list LogLine
}.

Definition M (A : Type) : Type := World -> Result A * World.

Definition ret {A} (a : A) : M A := fun w => (Ok a, w).

Definition bind {A B} (c : M A) (k : A -> M B) : M B :=
  fun w =>
    match c w with
    | (Ok a, w') => k a w'
    | (Raise e, w') => (Raise e, w')
    end.

Definition lift {A} (r : Result A) : M A := fun w => (r, w).

(** [try: c  except Exception as e: h e] *)
Definition try_except {A} (c : M A) (h : Exn -> M A) : M A :=
  fun w =>
    match c w with
    | (Ok a, w') => (Ok a, w')
    | (Raise e, w') => h e w'
    end.

Definition print (l : LogLine) : M unit :=
  fun w => (Ok tt, {| sent := sent w; stdout := stdout w ++ [l] |}).

Declare Scope py_scope.
Delimit Scope py_scope with py.
Notation "x <- c ;; k" := (bind c (fun x => k))
  (at level 61, c at next level, right associativity) : py_scope.
Notation "c ;;; k" := (bind c (fun _ => k))
  (at level 61, right associativity) : py_scope.
Local Open Scope py_scope.

(** Truth value of [img_bytes]: [None] and the empty buffer are false. *)
Definition truthy (o : option bytes) : bool :=
  match o with
  | Some (_ :: _) => true
  | _ => false
  end.

Definition the_bytes (o : option bytes) : bytes :=
  match o with
  | Some b => b
  | None => []
  end.

(* ================================================================== *)
(** ** The module [utils/extract_images.py] *)

Section ExtractImages.

Variable env : Externals.

(** *** [extract_images_from_pdf] *)

(** The inner loop: [for img in page.get_images(full=True)]. *)
Fixpoint pdf_page_loop (doc : Document) (imgs : list ImgTuple)
    (images : list bytes) : Result (list bytes) :=
  match imgs with
  | [] => Ok images
  | img :: rest =>
      match extract_image doc (xref img) with
      | Raise e => Raise e
      | Ok base_image =>
          match getitem_image base_image with
          | Raise e => Raise e
          | Ok b => pdf_page_loop doc rest (images ++ [b])
          end
      end
  end.

(** The outer loop: [for page in doc]. *)
Fixpoint pdf_doc_loop (doc : Document) (ps : list Page)
    (images : list bytes) : Result (list bytes) :=
  match ps with
  | [] => Ok images
  | page :: rest =>
      match get_images page with
      | Raise e => Raise e
      | Ok imgs =>
          match pdf_page_loop doc imgs images with
          | Raise e => Raise e
          | Ok images' => pdf_doc_loop doc rest images'
          end
      end
  end.

Definition extract_images_from_pdf (pdf_path : string)
  : Result (list bytes) :=
  match fitz_open env pdf_path with
  | Raise e => Raise e
  | Ok doc => pdf_doc_loop doc (pages doc) []
  end.

(** *** [download_and_convert] *)

Definition user_agent : string :=
  "Mozilla/5.0 (Windows NT 10.0; Win64; x64) " ++
  "AppleWebKit/537.36 (KHTML, like Gecko) " ++
  "Chrome/127.0.0.0 Safari/537.36".

Definition browser_headers : list (string * string) :=
  [("User-Agent", user_agent)].

(** [requests.get(url, timeout=..., headers=...)] *)
Definition requests_get (url : string) (timeout : option Z)
    (headers : list (string * string)) : M Response :=
  fun w =>
    let rq := {| req_url := url; req_timeout := timeout;
                 req_headers := headers |} in
    (respond env (sent w) rq,
     {| sent := sent w ++ [rq]; stdout := stdout w |}).

(** The [try] block of [download_and_convert]: open the buffer with
    Pillow, convert to RGB, save as JPEG; any exception prints a line and
    gives [None].  This is the normalizer of the specification. *)
Definition normalize (img_url : string) (buf : bytes) : M (option bytes) :=
  try_except
    (img <- lift (Image_open env buf) ;;
     img <- lift (Image_convert env img ModeRGB) ;;
     out <- lift (Image_save env img JPEG) ;;
     ret (Some out))
    (fun e => print (CouldNotOpenConvert img_url e) ;;; ret None).

Definition download_and_convert (img_url : string) : M (option bytes) :=
  let headers := browser_headers in
  resp <- requests_get img_url (Some 10%Z) headers ;;
  lift (raise_for_status resp) ;;;
  normalize img_url (content resp).

(** *** [extract_images_from_url] *)

Definition direct_extensions : list string :=
  [".jpg"; ".jpeg"; ".png"; ".gif"; ".bmp"; ".tiff"; ".webp"].

Definition image_patterns : list string :=
  ["/image/"; "/photo/"; "/img/"; ".png"; ".jpg"; ".jpeg"].

(** The guard of the direct-link branch, on the stripped URL. *)
Definition is_direct_link (url : string) : bool :=
  PyStr.endswith_any (PyStr.lower url) direct_extensions.

(** The guard of the image-like branch, on the stripped URL. *)
Definition is_image_like (url : string) : bool :=
  existsb (PyStr.contains (PyStr.lower url)) image_patterns.

(** The rewriting of one [src] attribute inside the loop. *)
Definition rewrite_src (url src : string) : string :=
  if PyStr.startswith src "//" then "https:" ++ src
  else if PyStr.startswith src "/" then
    let base := PyStr.join "/" (firstn 3 (PyStr.split "/" url)) in
    base ++ src
  else src.

(** The loop [for tag in img_tags]; [images] is the list being built.  A
    tag without [src], or with an empty one, is passed over
    ([if not src: continue]). *)
Fixpoint scrape_loop (url : string) (img_tags : list Tag)
    (images : list bytes) : M (list bytes) :=
  match img_tags with
  | [] => ret images
  | tag :: rest =>
      match tag_get tag "src" with
      | None => scrape_loop url rest images
      | Some src =>
          if String.eqb src "" then scrape_loop url rest images
          else
            let src := rewrite_src url src in
            images' <-
              try_except
                (img_bytes <- download_and_convert src ;;
                 if truthy img_bytes
                 then ret (images ++ [the_bytes img_bytes])
                 else ret images)
                (fun e => print (ErrorProcessingImage src e) ;;; ret images) ;;
            scrape_loop url rest images'
      end
  end.

(** The web-page route, from [print(f"Fetching HTML from: {url}")] on. *)
Definition scrape_webpage (url : string) : M (list bytes) :=
  print (FetchingHtml url) ;;;
  r <- try_except
         (resp <- requests_get url (Some 10%Z) [] ;;
          lift (raise_for_status resp) ;;;
          let img_tags := find_all_img env (text resp) in
          images <- scrape_loop url img_tags [] ;;
          ret (Some images))
         (fun e => print (ErrorFetchingWebpage e) ;;; ret None) ;;
  match r with
  | None => ret []
  | Some images => print (FoundImages (List.length images)) ;;; ret images
  end.

(** The image-like branch; [Some l] stands for [return l], [None] for
    falling out of the [if]. *)
Definition image_like_attempt (url : string) : M (option (list bytes)) :=
  if is_image_like url then
    print (ImageLikeDetected url) ;;;
    img_bytes <- download_and_convert url ;;
    if truthy img_bytes then ret (Some [the_bytes img_bytes])
    else print FailedDirectTryingWebpage ;;; ret None
  else ret None.

Definition extract_images_from_url (url : string) : M (list bytes) :=
  let url := PyStr.strip url in
  if is_direct_link url then
    print (DirectImageDetected url) ;;;
    img_bytes <- download_and_convert url ;;
    if truthy img_bytes then ret [the_bytes img_bytes] else ret []
  else
    returned <- image_like_attempt url ;;
    match returned with
    | Some l => ret l
    | None => scrape_webpage url
    end.

End ExtractImages.

(* ================================================================== *)
(** ** Notions the properties are stated with *)

(** *** Documents *)

(** The image tuples a page reports, none when the page cannot be read. *)
Definition page_entries (p : Page) : list ImgTuple :=
  match get_images p with
  | Ok imgs => imgs
  | Raise _ => []
  end.

(** The number of embedded images of a document, counted over its pages. *)
Definition embedded_image_count (doc : Document) : nat :=
  list_sum (map (fun p => List.length (page_entries p)) (pages doc)).

(** The bytes the document stores for an image tuple. *)
Definition stored_bytes (doc : Document) (img : ImgTuple) : bytes :=
  match extract_image doc (xref img) with
  | Ok (Some b) => image b
  | _ => []
  end.

(** The stored bytes of every image, page after page, each page in the
    order it reports them. *)
Definition document_buffers (doc : Document) : list bytes :=
  flat_map (fun p => map (stored_bytes doc) (page_entries p)) (pages doc).

Definition extractable (doc : Document) (img : ImgTuple) : bool :=
  match extract_image doc (xref img) with
  | Ok (Some _) => true
  | _ => false
  end.

Definition valid_page (doc : Document) (p : Page) : bool :=
  match get_images p with
  | Ok imgs => forallb (extractable doc) imgs
  | Raise _ => false
  end.

(** A valid document: every page reports its images and every reported
    image can be extracted. *)
Definition valid_document (doc : Document) : bool :=
  forallb (valid_page doc) (pages doc).

(** The error with which the document library rejects a path: the file is
    missing or is no document. *)
Definition SourceUnavailable (env : Externals) (pdf_path : string)
    (e : Exn) : Prop :=
  fitz_open env pdf_path = Raise e.

(** *** Requests *)

(** The request [download_and_convert] sends for a source. *)
Definition image_request (src : string) : Request :=
  {| req_url := src; req_timeout := Some 10%Z;
     req_headers := browser_headers |}.

(** The request the web-page route sends for the page. *)
Definition page_request (url : string) : Request :=
  {| req_url := url; req_timeout := Some 10%Z; req_headers := [] |}.

Definition has_browser_agent (rq : Request) : bool :=
  match tag_get_attr (req_headers rq) "User-Agent" with
  | Some v => String.eqb v user_agent
  | None => false
  end.

Definition has_timeout_10 (rq : Request) : bool :=
  match req_timeout rq with
  | Some t => (t =? 10)%Z
  | None => false
  end.

(** A fetch succeeds when the client returns a response whose status
    [raise_for_status] accepts. *)
Definition fetch_ok (r : Result Response) : option Response :=
  match r with
  | Ok resp =>
      match raise_for_status resp with
      | Ok _ => Some resp
      | Raise _ => None
      end
  | Raise _ => None
  end.

(** *** Conversion *)

(** What the three Pillow calls of [normalize] compute from a buffer. *)
Definition decoded (env : Externals) (buf : bytes) : Result bytes :=
  match Image_open env buf with
  | Raise e => Raise e
  | Ok img =>
      match Image_convert env img ModeRGB with
      | Raise e => Raise e
      | Ok rgb => Image_save env rgb JPEG
      end
  end.

Definition result_to_option {A} (r : Result A) : option A :=
  match r with
  | Ok a => Some a
  | Raise _ => None
  end.

(** The assumptions on Pillow: [convert] keeps the size and sets the mode
    asked for; a JPEG written from an RGB bitmap opens again as an RGB
    bitmap of the same size. *)
Definition PillowContract (env : Externals) : Prop :=
  (forall b m b', Image_convert env b m = Ok b' ->
     mode b' = m /\ width b' = width b /\ height b' = height b)
  /\
  (forall b out, mode b = ModeRGB -> Image_save env b JPEG = Ok out ->
     exists d, Image_open env out = Ok d /\ mode d = ModeRGB
               /\ width d = width b /\ height d = height b).

(** An encoded image is never the empty buffer. *)
Definition EncoderNonEmpty (env : Externals) : Prop :=
  forall b f out, Image_save env b f = Ok out -> out <> [].

(** *** Web pages *)

(** The non-empty [src] values of the tags, in document order. *)
Fixpoint image_sources (tags : list Tag) : list string :=
  match tags with
  | [] => []
  | t :: r =>
      match tag_get t "src" with
      | Some s => if String.eqb s "" then image_sources r
                  else s :: image_sources r
      | None => image_sources r
      end
  end.

(** The image one source yields when it is fetched after the requests
    [hist]: the converted bytes when fetch and conversion succeed. *)
Definition fetched_image (env : Externals) (hist : list Request)
    (src : string) : option bytes :=
  match fetch_ok (respond env hist (image_request src)) with
  | Some resp =>
      match decoded env (content resp) with
      | Ok (b :: r) => Some (b :: r)
      | _ => None
      end
  | None => None
  end.

(** One outcome per source, in order; each fetch sees the requests sent
    before it. *)
Fixpoint outcomes (env : Externals) (url : string) (hist : list Request)
    (srcs : list string) : list (option bytes) :=
  match srcs with
  | [] => []
  | s :: r =>
      let u := rewrite_src url s in
      fetched_image env hist u
        :: outcomes env url (hist ++ [image_request u]) r
  end.

(** The successes of a list of outcomes, order kept. *)
Fixpoint successes (os : list (option bytes)) : list bytes :=
  match os with
  | [] => []
  | Some b :: r => b :: successes r
  | None :: r => successes r
  end.

(** The call reaches the web-page route in world [w1]: the URL is no
    direct link and the image-like branch, if taken, returned nothing. *)
Definition falls_to_webpage (env : Externals) (u : string)
    (w w1 : World) : Prop :=
  is_direct_link u = false /\ image_like_attempt env u w = (Ok None, w1).

(** *** The wording of the specification for URLs *)

(** The part of a URL before its query and fragment. *)
Fixpoint url_path_part (s : string) : string :=
  match s with
  | EmptyString => EmptyString
  | String c r =>
      if Ascii.eqb c "?" || Ascii.eqb c "#" then EmptyString
      else String c (url_path_part r)
  end.

(** The last segment of the path of a URL. *)
Definition trailing_path_segment (url : string) : string :=
  last (PyStr.split "/" (url_path_part url)) EmptyString.

(** The trailing path segment has a recognized image extension. *)
Definition trailing_segment_has_image_extension (url : string) : bool :=
  PyStr.endswith_any (PyStr.lower (trailing_path_segment url))
    direct_extensions.

(** The scheme of a URL: the text before the first colon. *)
Fixpoint url_scheme (s : string) : string :=
  match s with
  | EmptyString => EmptyString
  | String c r =>
      if Ascii.eqb c ":" then EmptyString else String c (url_scheme r)
  end.

(** A protocol-relative reference taken against the scheme of the page,
    as the specification words it. *)
Definition resolve_protocol_relative (page src : string) : string :=
  url_scheme page ++ ":" ++ src.

(** The route the guards of [extract_images_from_url] choose first. *)
Inductive Route : Type := DirectRoute | ImageLikeRoute | WebpageRoute.

Definition route (url : string) : Route :=
  let u := PyStr.strip url in
  if is_direct_link u then DirectRoute
  else if is_image_like u then ImageLikeRoute
  else WebpageRoute.

Definition world0 : World := {| sent := []; stdout := [] |}.

(** *** Worlds and what a computation sends *)

Definition after_request (w : World) (rq : Request) : World :=
  {| sent := sent w ++ [rq]; stdout := stdout w |}.

(** From every world, the computation [c] only adds requests to the ones
    already sent, and each request it adds satisfies [P]. *)
Definition sends {A} (P : Request -> Prop) (c : M A) : Prop :=
  forall w, exists new,
    sent (snd (c w)) = sent w ++ new /\ Forall P new.

(** The fetched address of a source of the page at [url]. *)
Definition source_request (url src : string) : Request :=
  image_request (rewrite_src url src).

(* ================================================================== *)
(** ** Concrete externals, for evaluating the module on examples *)

Module Samples.

(** A small stand-in for Pillow.  An encoded image is three bytes: a mode
    tag, the width and the height. *)
Definition toy_mode (m : byte) : option Mode :=
  match m with
  | x01 => Some ModeL
  | x03 => Some ModeRGB
  | x04 => Some ModeRGBA
  | _ => None
  end.

Definition toy_open (buf : bytes) : Result Bitmap :=
  match buf with
  | [m; w; h] =>
      match toy_mode m with
      | Some md =>
          Ok {| mode := md; width := Z.of_N (Byte.to_N w);
                height := Z.of_N (Byte.to_N h); pixels := [] |}
      | None => Raise UnidentifiedImageError
      end
  | _ => Raise UnidentifiedImageError
  end.

Definition toy_convert (b : Bitmap) (m : Mode) : Result Bitmap :=
  Ok {| mode := m; width := width b; height := height b;
        pixels := pixels b |}.

Definition toy_save (b : Bitmap) (f : Format) : Result bytes :=
  match f, mode b with
  | JPEG, ModeRGB =>
      if ((0 <=? width b) && (0 <=? height b))%Z then
        match Byte.of_N (Z.to_N (width b)), Byte.of_N (Z.to_N (height b)) with
        | Some w, Some h => Ok [x03; w; h]
        | _, _ => Raise OSError
        end
      else Raise OSError
  | _, _ => Raise OSError
  end.

(** A document of two pages: two images on the first, one on the second. *)
Definition mk_img (x : Z) : ImgTuple :=
  {| xref := x; smask := 0; img_width := 2; img_height := 2; bpc := 8;
     colorspace := "DeviceRGB"; alt_colorspace := ""; img_name := "Im";
     img_filter := "DCTDecode"; referencer := 0 |}.

Definition sample_store (x : Z) : Result (option BaseImage) :=
  if (x =? 5)%Z then Ok (Some {| ext := "jpeg"; image := [x03; x02; x02] |})
  else if (x =? 7)%Z then Ok (Some {| ext := "png"; image := [x04; x01; x01] |})
  else if (x =? 9)%Z then Ok (Some {| ext := "jpeg"; image := [x01; x09; x09] |})
  else Ok None.

Definition sample_doc : Document :=
  {| pages := [ {| get_images := Ok [mk_img 5; mk_img 7] |};
                {| get_images := Ok [mk_img 9] |} ];
     extract_image := sample_store |}.

Definition sample_fitz_open (path : string) : Result Document :=
  if String.eqb path "report.pdf" then Ok sample_doc
  else if String.eqb path "notes.txt" then Raise FileDataError
  else Raise FileNotFoundError.

(** A small web site: an HTML page with two images, reachable under
    several addresses, and three image files. *)
Definition page_html : string :=
  "<img src='/a.png'><img src='//cdn.example.com/b.png'>".

Definition html_response : Response :=
  {| status_code := 200; content := list_byte_of_string page_html;
     text := page_html |}.

Definition image_response (c : bytes) : Response :=
  {| status_code := 200; content := c; text := "" |}.

Definition not_found : Response :=
  {| status_code := 404; content := []; text := "" |}.

Definition sample_site (rq : Request) : Result Response :=
  let u := req_url rq in
  if String.eqb u "https://example.com/page.html" then Ok html_response
  else if String.eqb u "http://example.com/page.html" then Ok html_response
  else if String.eqb u "https://example.com/photo.jpg?w=400"
       then Ok html_response
  else if String.eqb u "https://example.com/img/gallery" then Ok html_response
  else if String.eqb u "https://example.com/a.png"
       then Ok (image_response [x04; x02; x02])
  else if String.eqb u "https://cdn.example.com/b.png"
       then Ok (image_response [x01; x05; x07])
  else if String.eqb u "https://example.com/photo.jpg"
       then Ok (image_response [x03; x08; x06])
  else Ok not_found.

Definition sample_find_all_img (html : string) : list Tag :=
  if String.eqb html page_html
  then [ {| attrs := [("src", "/a.png")] |};
         {| attrs := [("src", "//cdn.example.com/b.png")] |} ]
  else [].

(** The site answers every request the same way at any moment. *)
Definition sample_env : Externals :=
  {| fitz_open := sample_fitz_open;
     respond := fun _ rq => sample_site rq;
     find_all_img := sample_find_all_img;
     Image_open := toy_open;
     Image_convert := toy_convert;
     Image_save := toy_save |}.

(** The same site behind a connection whose first request times out. *)
Definition flaky_env : Externals :=
  {| fitz_open := sample_fitz_open;
     respond := fun hist rq =>
                  match hist with
                  | [] => Raise ReadTimeout
                  | _ => sample_site rq
                  end;
     find_all_img := sample_find_all_img;
     Image_open := toy_open;
     Image_convert := toy_convert;
     Image_save := toy_save |}.

End Samples.

(* ================================================================== *)
(** ** Further notions: the console, and more concrete externals *)

(** The console is write-only for [c]: started from any world, [c] gives
    the result and sends the requests it gives from the same world with an
    empty console, and its lines come after the ones already there. *)
Definition console_blind {A} (c : M A) : Prop :=
  forall w,
    let blank := {| sent := sent w; stdout := [] |} in
    fst (c w) = fst (c blank)
    /\ sent (snd (c w)) = sent (snd (c blank))
    /\ stdout (snd (c w)) = stdout w ++ stdout (snd (c blank)).

Module MoreSamples.

(** A document whose second image has an xref that is no image: the
    library answers it with the empty dictionary. *)
Definition broken_doc : Document :=
  {| pages := [ {| get_images := Ok [Samples.mk_img 5; Samples.mk_img 6] |};
                {| get_images := Ok [Samples.mk_img 9] |} ];
     extract_image := Samples.sample_store |}.

(** A document without any image. *)
Definition text_only_doc : Document :=
  {| pages := [ {| get_images := Ok [] |}; {| get_images := Ok [] |} ];
     extract_image := Samples.sample_store |}.

Definition more_fitz_open (path : string) : Result Document :=
  if String.eqb path "broken.pdf" then Ok broken_doc
  else if String.eqb path "text.pdf" then Ok text_only_doc
  else Samples.sample_fitz_open path.

(** The sample site with one more address, an image served under a path
    that holds [/photo/] and has no extension. *)
Definition photo_site (rq : Request) : Result Response :=
  if String.eqb (req_url rq) "https://example.com/photo/cat"
  then Ok (Samples.image_response [x01; x04; x04])
  else Samples.sample_site rq.

Definition photo_env : Externals :=
  {| fitz_open := more_fitz_open;
     respond := fun _ rq => photo_site rq;
     find_all_img := Samples.sample_find_all_img;
     Image_open := Samples.toy_open;
     Image_convert := Samples.toy_convert;
     Image_save := Samples.toy_save |}.

End MoreSamples.

(* ================================================================== *)
(** ** The command line entry point, [main.py] *)

Module Cli.

(** The parsed arguments: [args.pdf] and [args.url], each a string or
    [None]. *)
Record Args : Type := {
  arg_pdf : option string;
  arg_url : option string
}.

(** Truth value of an optional string: [None] and the empty string are
    false. *)
Definition given (o : option string) : bool :=
  match o with
  | Some s => negb (String.eqb s "")
  | None => false
  end.

Definition value (o : option string) : string :=
  match o with
  | Some s => s
  | None => ""
  end.

(** The lines on the console of a run of [main]: the lines of the
    extraction module and the lines [main] prints itself. *)
Inductive ConsoleLine : Type :=
| ModuleLine (l : LogLine)
| FetchingFrom (url : string)
| ErrorInsideExtract (e : Exn)
| PleaseProvideInput
| FoundCount (n : nat)
| NoImagesExtracted
| ImageLabel (i : nat) (label : string)
| ErrorProcessingNumbered (i : nat) (e : Exn).

(** The number a line carries, for the lines that report an image. *)
Definition line_number (l : ConsoleLine) : option nat :=
  match l with
  | ImageLabel i _ => Some i
  | ErrorProcessingNumbered i _ => Some i
  | _ => None
  end.

(** The world of a run of [main]. *)
Record Session : Type := {
  requests : list Request;
  console : list ConsoleLine
}.

Definition Prog (A : Type) : Type := Session -> Result A * Session.

Definition pret {A} (a : A) : Prog A := fun s => (Ok a, s).

Definition pbind {A B} (c : Prog A) (k : A -> Prog B) : Prog B :=
  fun s =>
    match c s with
    | (Ok a, s') => k a s'
    | (Raise e, s') => (Raise e, s')
    end.

Definition plift {A} (r : Result A) : Prog A := fun s => (r, s).

Definition ptry {A} (c : Prog A) (h : Exn -> Prog A) : Prog A :=
  fun s =>
    match c s with
    | (Ok a, s') => (Ok a, s')
    | (Raise e, s') => h e s'
    end.

Definition say (l : ConsoleLine) : Prog unit :=
  fun s => (Ok tt, {| requests := requests s; console := console s ++ [l] |}).

(** A call into the extraction module: it runs on the requests of the
    session, and the lines it prints go to the console of the session. *)
Definition run_module {A} (c : M A) : Prog A :=
  fun s =>
    let (r, w) := c {| sent := requests s; stdout := [] |} in
    (r, {| requests := sent w;
           console := console s ++ map ModuleLine (stdout w) |}).

Declare Scope prog_scope.
Delimit Scope prog_scope with prog.
Notation "x <- c ;; k" := (pbind c (fun x => k))
  (at level 61, c at next level, right associativity) : prog_scope.
Notation "c ;;; k" := (pbind c (fun _ => k))
  (at level 61, right associativity) : prog_scope.
Local Open Scope prog_scope.

(** Modelled from the spec: [utils/classify.py] is not among the sources;
    the specification gives [classify_images_clip] as an opaque function
    from a bitmap to a label, free of side effects.  It is a parameter
    here, and it may raise. *)
Record Deps : Type := {
  library : Externals;
  classify_images_clip : Bitmap -> Result string
}.

(** [Image.open(io.BytesIO(img_bytes)).convert("RGB")] *)
Definition open_rgb (env : Externals) (img_bytes : bytes) : Result Bitmap :=
  match Image_open env img_bytes with
  | Raise e => Raise e
  | Ok img => Image_convert env img ModeRGB
  end.

Section Main.

Variable deps : Deps.

(** The loop [for i, img_bytes in enumerate(images)], entered at index
    [i]. *)
Fixpoint classify_loop (i : nat) (images : list bytes) : Prog unit :=
  match images with
  | [] => pret tt
  | img_bytes :: rest =>
      ptry
        (image <- plift (open_rgb (library deps) img_bytes) ;;
         label <- plift (classify_images_clip deps image) ;;
         say (ImageLabel (i + 1) label))
        (fun e => say (ErrorProcessingNumbered (i + 1) e)) ;;;
      classify_loop (S i) rest
  end.

(** The [if args.pdf: ... elif args.url: ... else: ...] statement;
    [None] stands for the [return] of a branch. *)
Definition choose_images (args : Args) : Prog (option (list bytes)) :=
  if given (arg_pdf args) then
    images <- plift (extract_images_from_pdf (library deps)
                       (value (arg_pdf args))) ;;
    pret (Some images)
  else if given (arg_url args) then
    say (FetchingFrom (value (arg_url args))) ;;;
    ptry
      (images <- run_module (extract_images_from_url (library deps)
                               (value (arg_url args))) ;;
       pret (Some images))
      (fun e => say (ErrorInsideExtract e) ;;; pret None)
  else
    say PleaseProvideInput ;;; pret None.

(** [main], from the parsed arguments on. *)
Definition main (args : Args) : Prog unit :=
  chosen <- choose_images args ;;
  match chosen with
  | None => pret tt
  | Some images =>
      say (FoundCount (List.length images)) ;;;
      match images with
      | [] => say NoImagesExtracted
      | _ :: _ => classify_loop 0 images
      end
  end.

(** The line the loop prints for the image at index [i]. *)
Definition report_line (i : nat) (img_bytes : bytes) : ConsoleLine :=
  match open_rgb (library deps) img_bytes with
  | Raise e => ErrorProcessingNumbered (i + 1) e
  | Ok image =>
      match classify_images_clip deps image with
      | Ok label => ImageLabel (i + 1) label
      | Raise e => ErrorProcessingNumbered (i + 1) e
      end
  end.

Fixpoint report_lines (i : nat) (images : list bytes) : list ConsoleLine :=
  match images with
  | [] => []
  | img_bytes :: rest => report_line i img_bytes :: report_lines (S i) rest
  end.

End Main.

(** A classifier for the examples: it labels by the width of the bitmap
    and refuses an empty one. *)
Definition toy_classify (b : Bitmap) : Result string :=
  if (width b =? 0)%Z then Raise ValueError
  else if (width b <? 5)%Z then Ok "medical"
  else Ok "non-medical".

Definition sample_deps : Deps :=
  {| library := MoreSamples.photo_env;
     classify_images_clip := toy_classify |}.

Definition session0 : Session := {| requests := []; console := [] |}.

End Cli.

(* ================================================================== *)
(** ** The first evaluation of [evaluate_performance.py] *)

Module Evaluate.

(** The exceptions of this script: the ones of the libraries and the
    division by zero of Python itself. *)
Inductive PyExn : Type :=
| LibraryError (e : Exn)
| ZeroDivisionError.

Inductive Outcome (A : Type) : Type :=
| Returned (a : A)
| Raised (e : PyExn).
Arguments Returned {A} a.
Arguments Raised {A} e.

Definition of_result {A} (r : Result A) : Outcome A :=
  match r with
  | Ok a => Returned a
  | Raise e => Raised (LibraryError e)
  end.

(** What the function calls and does not define.  Floating-point numbers
    are kept abstract: the type, the readings of the clock and the
    operations the function applies to them are parameters. *)
Record Deps : Type := {
  float : Type;
  path_exists : string -> bool;
  Image_open_path : string -> Result Bitmap;
  Image_convert : Bitmap -> Mode -> Result Bitmap;
  classify_images_clip : Bitmap -> Result string;
  time_time : nat -> float;
  float_sub : float -> float -> float;
  statistics_mean : list float -> float;
  percentage : Z -> Z -> float;
  float_of_int : Z -> float;
  float_is_zero : float -> bool;
  reciprocal : float -> float
}.

Section Single.

Variable deps : Deps.

(** A Python number as the function holds it: the literal [0] is an int,
    every computed value a float. *)
Inductive Number : Type :=
| IntNum (z : Z)
| FloatNum (f : float deps).

Inductive Line : Type :=
| EvaluatingSingle
| SkippingNotFound (path : string)
| CaseResult (is_correct : bool) (path expected predicted : string)
    (processing_time : float deps)
| ErrorProcessing (path : string) (e : PyExn)
| SingleImageResults
| AccuracyLine (correct total : Z) (accuracy : Number)
| AverageTimeLine (avg_time : Number)
| ThroughputLine (throughput : float deps).

(** The state of a run: how often the clock has been read, and the
    console. *)
Record State : Type := {
  clock_reads : nat;
  printed : list Line
}.

Definition Run (A : Type) : Type := State -> Outcome A * State.

Definition rret {A} (a : A) : Run A := fun st => (Returned a, st).

Definition rbind {A B} (c : Run A) (k : A -> Run B) : Run B :=
  fun st =>
    match c st with
    | (Returned a, st') => k a st'
    | (Raised e, st') => (Raised e, st')
    end.

Definition rlift {A} (o : Outcome A) : Run A := fun st => (o, st).

Definition rtry {A} (c : Run A) (h : PyExn -> Run A) : Run A :=
  fun st =>
    match c st with
    | (Returned a, st') => (Returned a, st')
    | (Raised e, st') => h e st'
    end.

Definition rprint (l : Line) : Run unit :=
  fun st => (Returned tt,
             {| clock_reads := clock_reads st;
                printed := printed st ++ [l] |}).

(** [time.time()] *)
Definition now : Run (float deps) :=
  fun st => (Returned (time_time deps (clock_reads st)),
             {| clock_reads := S (clock_reads st);
                printed := printed st |}).

Notation "x <- c ;; k" := (rbind c (fun x => k))
  (at level 61, c at next level, right associativity).
Notation "c ;;; k" := (rbind c (fun _ => k))
  (at level 61, right associativity).

(** [1/x] *)
Definition one_over (x : Number) : Outcome (float deps) :=
  match x with
  | IntNum z =>
      if (z =? 0)%Z then Raised ZeroDivisionError
      else Returned (reciprocal deps (float_of_int deps z))
  | FloatNum f =>
      if float_is_zero deps f then Raised ZeroDivisionError
      else Returned (reciprocal deps f)
  end.

Definition test_cases : list (string * string) :=
  [("test_images/test image 1.jpg", "medical")].

(** The loop [for image_path, expected_label in test_cases]; the three
    accumulators are [correct], [total] and [times]. *)
Fixpoint cases_loop (cases : list (string * string)) (correct total : Z)
    (times : list (float deps)) : Run (Z * Z * list (float deps)) :=
  match cases with
  | [] => rret (correct, total, times)
  | (image_path, expected_label) :: rest =>
      if negb (path_exists deps image_path) then
        rprint (SkippingNotFound image_path) ;;;
        cases_loop rest correct total times
      else
        acc <-
          rtry
            (image <- rlift (of_result
                       (match Image_open_path deps image_path with
                        | Raise e => Raise e
                        | Ok img => Image_convert deps img ModeRGB
                        end)) ;;
             start_time <- now ;;
             predicted_label <- rlift (of_result
                                         (classify_images_clip deps image)) ;;
             end_time <- now ;;
             let processing_time := float_sub deps end_time start_time in
             let times' := times ++ [processing_time] in
             let is_correct := String.eqb predicted_label expected_label in
             let correct' := (correct + (if is_correct then 1 else 0))%Z in
             let total' := (total + 1)%Z in
             rprint (CaseResult is_correct image_path expected_label
                       predicted_label processing_time) ;;;
             rret (correct', total', times'))
            (fun e =>
               rprint (ErrorProcessing image_path e) ;;;
               rret (correct, total, times)) ;;
        let '(correct', total', times') := acc in
        cases_loop rest correct' total' times'
  end.

Definition evaluate_single_image_classification : Run (Number * Number) :=
  rprint EvaluatingSingle ;;;
  acc <- cases_loop test_cases 0%Z 0%Z [] ;;
  let '(correct, total, times) := acc in
  let accuracy :=
    if (total >? 0)%Z then FloatNum (percentage deps correct total)
    else IntNum 0 in
  let avg_time :=
    match times with
    | [] => IntNum 0
    | _ :: _ => FloatNum (statistics_mean deps times)
    end in
  rprint SingleImageResults ;;;
  rprint (AccuracyLine correct total accuracy) ;;;
  rprint (AverageTimeLine avg_time) ;;;
  throughput <- rlift (one_over avg_time) ;;
  rprint (ThroughputLine throughput) ;;;
  rret (accuracy, avg_time).

(** The test image can be timed: the file exists, opens, converts and is
    classified. *)
Definition timed (image_path : string) : bool :=
  path_exists deps image_path
  && match Image_open_path deps image_path with
     | Raise _ => false
     | Ok img =>
         match Image_convert deps img ModeRGB with
         | Raise _ => false
         | Ok rgb =>
             match classify_images_clip deps rgb with
             | Ok _ => true
             | Raise _ => false
             end
         end
     end.

Definition state0 : State := {| clock_reads := 0; printed := [] |}.

End Single.

(** Concrete dependencies for the examples: floats are integers counting
    milliseconds, the clock advances by 250 at each reading, and no test
    image is on the disk. *)
Definition empty_disk : Deps :=
  {| float := Z;
     path_exists := fun _ => false;
     Image_open_path := fun _ => Raise FileNotFoundError;
     Image_convert := Samples.toy_convert;
     classify_images_clip := Cli.toy_classify;
     time_time := fun n => (250 * Z.of_nat n)%Z;
     float_sub := Z.sub;
     statistics_mean := fun l => (fold_right Z.add 0 l / Z.of_nat (List.length l))%Z;
     percentage := fun c t => (c * 100 / t)%Z;
     float_of_int := fun z => z;
     float_is_zero := fun f => (f =? 0)%Z;
     reciprocal := fun f => (1000 / f)%Z |}.

(** The same with the test image on the disk. *)
Definition with_image : Deps :=
  {| float := Z;
     path_exists := fun p => String.eqb p "test_images/test image 1.jpg";
     Image_open_path := fun _ =>
       Ok {| mode := ModeL; width := 4; height := 4; pixels := [] |};
     Image_convert := Samples.toy_convert;
     classify_images_clip := Cli.toy_classify;
     time_time := fun n => (250 * Z.of_nat n)%Z;
     float_sub := Z.sub;
     statistics_mean := fun l => (fold_right Z.add 0 l / Z.of_nat (List.length l))%Z;
     percentage := fun c t => (c * 100 / t)%Z;
     float_of_int := fun z => z;
     float_is_zero := fun f => (f =? 0)%Z;
     reciprocal := fun f => (1000 / f)%Z |}.

End Evaluate.

(* ================================================================== *)
(** ** The string operations and the guards on examples *)

Example strip_example : PyStr.strip "  a b   " = "a b".
Proof. reflexivity. Qed.

Example split_example :
  PyStr.split "/" "https://example.com/page.html"
  = ["https:"; ""; "example.com"; "page.html"].
Proof. reflexivity. Qed.

Example direct_link_upper_case :
  is_direct_link "https://example.com/SCAN.PNG" = true.
Proof. reflexivity. Qed.

(** The URL of the repository's demo: its path ends in [.jpeg], a query
    string follows, so the direct-link guard fails and the image-like
    guard holds. *)
Example demo_url_routes :
  let demo :=
    "https://images.pexels.com/photos/3376790/pexels-photo-3376790.jpeg?auto=compress&cs=tinysrgb&w=400"
  in
  trailing_segment_has_image_extension demo = true
  /\ route demo = ImageLikeRoute.
Proof. split; reflexivity. Qed.

(* ================================================================== *)
(** ** The PDF extractor *)

Lemma pdf_page_loop_valid (doc : Document) (imgs : list ImgTuple) :
  forall images,
    forallb (extractable doc) imgs = true ->
    pdf_page_loop doc imgs images
    = Ok (images ++ map (stored_bytes doc) imgs).
Proof.
  induction imgs as [|img rest IH]; intros images Hv; simpl.
  - now rewrite app_nil_r.
  - simpl in Hv. apply andb_true_iff in Hv as [Himg Hrest].
    unfold extractable in Himg. unfold stored_bytes at 1.
    destruct (extract_image doc (xref img)) as [[b|]|e]; try discriminate.
    simpl. rewrite (IH _ Hrest). now rewrite <- app_assoc.
Qed.

Lemma pdf_doc_loop_valid (doc : Document) (ps : list Page) :
  forall images,
    forallb (valid_page doc) ps = true ->
    pdf_doc_loop doc ps images
    = Ok (images
          ++ flat_map (fun p => map (stored_bytes doc) (page_entries p)) ps).
Proof.
  induction ps as [|p rest IH]; intros images Hv; simpl.
  - now rewrite app_nil_r.
  - simpl in Hv. apply andb_true_iff in Hv as [Hp Hrest].
    unfold valid_page in Hp. unfold page_entries at 1.
    destruct (get_images p) as [imgs|e]; try discriminate.
    rewrite (pdf_page_loop_valid _ _ _ Hp), (IH _ Hrest).
    now rewrite <- app_assoc.
Qed.

Lemma document_buffers_length (doc : Document) :
  List.length (document_buffers doc) = embedded_image_count doc.
Proof.
  unfold document_buffers, embedded_image_count.
  induction (pages doc) as [|p rest IH]; simpl; [reflexivity|].
  now rewrite length_app, length_map, IH.
Qed.

(** C1. For a path that opens as a valid document with N embedded images
    over its pages, [extract_images_from_pdf] returns exactly N buffers:
    the bytes the document stores for each image, untouched, page after
    page and within a page in the order the page reports its images. *)
Theorem extract_images_from_pdf_valid :
  forall (env : Externals) (pdf_path : string) (doc : Document),
    fitz_open env pdf_path = Ok doc ->
    valid_document doc = true ->
    extract_images_from_pdf env pdf_path = Ok (document_buffers doc)
    /\ List.length (document_buffers doc) = embedded_image_count doc.
Proof.
  intros env pdf_path doc Hopen Hvalid. split.
  - unfold extract_images_from_pdf. rewrite Hopen.
    now rewrite (pdf_doc_loop_valid doc (pages doc) [] Hvalid).
  - apply document_buffers_length.
Qed.

Lemma extract_images_from_pdf_valid_witness :
  fitz_open Samples.sample_env "report.pdf" = Ok Samples.sample_doc
  /\ valid_document Samples.sample_doc = true
  /\ extract_images_from_pdf Samples.sample_env "report.pdf"
     = Ok [[x03; x02; x02]; [x04; x01; x01]; [x01; x09; x09]]
  /\ embedded_image_count Samples.sample_doc = 3.
Proof.
  split; [reflexivity|]. split; [reflexivity|].
  split.
  - exact (proj1 (extract_images_from_pdf_valid Samples.sample_env
                    "report.pdf" Samples.sample_doc eq_refl eq_refl)).
  - reflexivity.
Defined.

(** C2. When the document library rejects the path, because the file is
    missing or cannot be parsed, [extract_images_from_pdf] raises that
    error to its caller and returns no list of buffers at all. *)
Theorem extract_images_from_pdf_unavailable :
  forall (env : Externals) (pdf_path : string) (e : Exn),
    SourceUnavailable env pdf_path e ->
    extract_images_from_pdf env pdf_path = Raise e
    /\ forall images, extract_images_from_pdf env pdf_path <> Ok images.
Proof.
  intros env pdf_path e Hun. unfold SourceUnavailable in Hun.
  unfold extract_images_from_pdf. rewrite Hun. split; [reflexivity|].
  intros images H; discriminate H.
Qed.

Lemma extract_images_from_pdf_unavailable_witness :
  SourceUnavailable Samples.sample_env "missing.pdf" FileNotFoundError
  /\ extract_images_from_pdf Samples.sample_env "missing.pdf"
     = Raise FileNotFoundError.
Proof.
  split; [reflexivity|].
  exact (proj1 (extract_images_from_pdf_unavailable Samples.sample_env
                  "missing.pdf" FileNotFoundError eq_refl)).
Defined.

(* ================================================================== *)
(** ** The normalizer *)

(** [normalize] computes [decoded] and touches the world only to print
    the failure line. *)
Lemma normalize_run (env : Externals) (img_url : string) (buf : bytes)
    (w : World) :
  normalize env img_url buf w
  = match decoded env buf with
    | Ok out => (Ok (Some out), w)
    | Raise e =>
        (Ok None,
         {| sent := sent w;
            stdout := stdout w ++ [CouldNotOpenConvert img_url e] |})
    end.
Proof.
  unfold normalize, decoded, try_except, bind, lift, ret, print.
  destruct (Image_open env buf) as [img|e]; [|reflexivity].
  destruct (Image_convert env img ModeRGB) as [rgb|e]; [|reflexivity].
  destruct (Image_save env rgb JPEG) as [out|e]; reflexivity.
Qed.

Lemma normalize_result (env : Externals) (img_url : string) (buf : bytes)
    (w : World) :
  fst (normalize env img_url buf w) = Ok (result_to_option (decoded env buf)).
Proof.
  rewrite normalize_run. now destruct (decoded env buf).
Qed.

Lemma normalize_sent (env : Externals) (img_url : string) (buf : bytes)
    (w : World) :
  sent (snd (normalize env img_url buf w)) = sent w.
Proof.
  rewrite normalize_run. now destruct (decoded env buf).
Qed.

(** C8. [normalize] is a function of its buffer alone: run twice in a row
    on the same buffer it gives the same output both times; the output is
    the same in every world and under every URL label; no request is sent
    and nothing of the world is read. *)
Theorem normalize_pure :
  forall (env : Externals) (img_url : string) (buf : bytes) (w : World),
    let first := normalize env img_url buf w in
    let second := normalize env img_url buf (snd first) in
    fst first = fst second
    /\ sent (snd second) = sent w
    /\ forall (url' : string) (w' : World),
         fst (normalize env url' buf w') = fst first.
Proof.
  intros env img_url buf w first second. subst first second.
  repeat split.
  - now rewrite !normalize_result.
  - now rewrite !normalize_sent.
  - intros url' w'. now rewrite !normalize_result.
Qed.

(** C9. Under the contract of Pillow, whenever [normalize] converts a
    buffer, its output opens again as a three-channel RGB bitmap whose
    width and height are those of the bitmap the input decoded to. *)
Theorem normalize_keeps_dimensions :
  forall (env : Externals) (img_url : string) (buf out : bytes)
         (w w' : World),
    PillowContract env ->
    normalize env img_url buf w = (Ok (Some out), w') ->
    exists source canonical : Bitmap,
      Image_open env buf = Ok source
      /\ Image_open env out = Ok canonical
      /\ mode canonical = ModeRGB
      /\ channels (mode canonical) = 3%Z
      /\ width canonical = width source
      /\ height canonical = height source.
Proof.
  intros env img_url buf out w w' [Hconv Hsave] Hrun.
  rewrite normalize_run in Hrun. unfold decoded in Hrun.
  destruct (Image_open env buf) as [source|e]; [|discriminate].
  destruct (Image_convert env source ModeRGB) as [rgb|e] eqn:Hc;
    [|discriminate].
  destruct (Image_save env rgb JPEG) as [o|e] eqn:Hs; [|discriminate].
  injection Hrun as Ho _. subst o.
  destruct (Hconv _ _ _ Hc) as (Hm & Hw & Hh).
  destruct (Hsave _ _ Hm Hs) as (d & Hd & Hdm & Hdw & Hdh).
  exists source, d. rewrite Hdm. repeat split; try assumption; congruence.
Qed.

Lemma toy_pillow_contract : PillowContract Samples.sample_env.
Proof.
  split; simpl.
  - intros b m b' H. unfold Samples.toy_convert in H.
    injection H as <-. now simpl.
  - intros b out Hm H. unfold Samples.toy_save in H. rewrite Hm in H.
    destruct ((0 <=? width b) && (0 <=? height b))%Z eqn:Hpos;
      [|discriminate].
    apply andb_true_iff in Hpos as [Hw Hh].
    apply Z.leb_le in Hw, Hh.
    destruct (Byte.of_N (Z.to_N (width b))) as [bw|] eqn:Ew; [|discriminate].
    destruct (Byte.of_N (Z.to_N (height b))) as [bh|] eqn:Eh; [|discriminate].
    injection H as <-.
    apply Byte.to_of_N in Ew, Eh.
    eexists. split; [reflexivity|]. simpl.
    rewrite Ew, Eh, !Z2N.id by assumption. now repeat split.
Qed.

Lemma normalize_keeps_dimensions_witness :
  PillowContract Samples.sample_env
  /\ normalize Samples.sample_env "https://example.com/a.png"
       [x04; x02; x02] world0
     = (Ok (Some [x03; x02; x02]), world0)
  /\ exists source canonical : Bitmap,
       Image_open Samples.sample_env [x04; x02; x02] = Ok source
       /\ Image_open Samples.sample_env [x03; x02; x02] = Ok canonical
       /\ mode canonical = ModeRGB
       /\ channels (mode canonical) = 3%Z
       /\ width canonical = width source
       /\ height canonical = height source.
Proof.
  split; [exact toy_pillow_contract|]. split; [reflexivity|].
  exact (normalize_keeps_dimensions Samples.sample_env
           "https://example.com/a.png" [x04; x02; x02] [x03; x02; x02]
           world0 world0 toy_pillow_contract eq_refl).
Defined.

(* ================================================================== *)
(** ** Running the resolver *)

Lemma download_and_convert_run (env : Externals) (src : string) (w : World) :
  download_and_convert env src w
  = let w1 := after_request w (image_request src) in
    match respond env (sent w) (image_request src) with
    | Raise e => (Raise e, w1)
    | Ok resp =>
        match raise_for_status resp with
        | Raise e => (Raise e, w1)
        | Ok _ => normalize env src (content resp) w1
        end
    end.
Proof.
  unfold download_and_convert, requests_get, bind, lift, after_request,
    image_request.
  destruct (respond env (sent w) _) as [resp|e]; [|reflexivity].
  destruct (raise_for_status resp); reflexivity.
Qed.

Lemma download_and_convert_sent (env : Externals) (src : string) (w : World) :
  sent (snd (download_and_convert env src w)) = sent w ++ [image_request src].
Proof.
  rewrite download_and_convert_run. cbv zeta.
  destruct (respond env (sent w) _) as [resp|e]; [|reflexivity].
  destruct (raise_for_status resp); [|reflexivity].
  now rewrite normalize_sent.
Qed.

(** One turn of the loop body: whatever the fetch and the conversion do,
    the turn ends normally, adds the image of the source if there is one,
    and has sent exactly one request. *)
Lemma loop_attempt_run (env : Externals) (src : string)
    (images : list bytes) (w : World) :
  exists w',
    try_except
      (img_bytes <- download_and_convert env src ;;
       if truthy img_bytes
       then ret (images ++ [the_bytes img_bytes])
       else ret images)
      (fun e => print (ErrorProcessingImage src e) ;;; ret images) w
    = (Ok (images ++ successes [fetched_image env (sent w) src]), w')
    /\ sent w' = sent w ++ [image_request src].
Proof.
  unfold try_except, bind. rewrite download_and_convert_run. cbv zeta.
  unfold fetched_image, fetch_ok.
  destruct (respond env (sent w) _) as [resp|e].
  - destruct (raise_for_status resp).
    + rewrite normalize_run.
      destruct (decoded env (content resp)) as [[|b r]|e]; simpl;
        rewrite ?app_nil_r; eexists; split; reflexivity.
    + simpl. rewrite app_nil_r. eexists; split; reflexivity.
  - simpl. rewrite app_nil_r. eexists; split; reflexivity.
Qed.

Lemma scrape_loop_run (env : Externals) (url : string) (tags : list Tag) :
  forall (images : list bytes) (w : World),
  exists w',
    scrape_loop env url tags images w
    = (Ok (images
           ++ successes (outcomes env url (sent w) (image_sources tags))), w')
    /\ sent w' = sent w ++ map (source_request url) (image_sources tags).
Proof.
  induction tags as [|tag rest IH]; intros images w; simpl.
  - exists w. now rewrite !app_nil_r.
  - destruct (tag_get tag "src") as [src|]; [|apply IH].
    destruct (String.eqb src ""); [apply IH|].
    destruct (loop_attempt_run env (rewrite_src url src) images w)
      as (w1 & Hrun & Hsent).
    unfold bind at 1. rewrite Hrun.
    destruct (IH (images ++ successes
                    [fetched_image env (sent w) (rewrite_src url src)]) w1)
      as (w2 & Hloop & Hsent2).
    exists w2. rewrite Hloop, Hsent2, Hsent. simpl. split.
    + f_equal.
      destruct (fetched_image env (sent w) (rewrite_src url src));
        simpl; now rewrite <- ?app_assoc, ?app_nil_r.
    + now rewrite <- app_assoc.
Qed.

Lemma outcomes_length (env : Externals) (url : string) (srcs : list string) :
  forall hist, List.length (outcomes env url hist srcs) = List.length srcs.
Proof.
  induction srcs as [|s r IH]; intros hist; simpl; [reflexivity|].
  now rewrite IH.
Qed.

Lemma successes_length (os : list (option bytes)) :
  List.length (successes os) <= List.length os.
Proof.
  induction os as [|[b|] r IH]; simpl; lia.
Qed.

(** The web-page route when the page is fetched. *)
Lemma scrape_webpage_run (env : Externals) (u : string) (w : World)
    (resp : Response) :
  fetch_ok (respond env (sent w) (page_request u)) = Some resp ->
  let srcs := image_sources (find_all_img env (text resp)) in
  let hist := sent w ++ [page_request u] in
  exists w',
    scrape_webpage env u w = (Ok (successes (outcomes env u hist srcs)), w')
    /\ sent w' = hist ++ map (source_request u) srcs.
Proof.
  intros Hfetch srcs hist. unfold fetch_ok in Hfetch.
  unfold scrape_webpage, bind at 1, print.
  unfold bind at 1, try_except, bind at 1, requests_get.
  fold (page_request u). cbn [sent stdout].
  destruct (respond env (sent w) (page_request u)) as [r|e]; [|discriminate].
  unfold bind at 1, lift.
  destruct (raise_for_status r) as [[]|e]; [|discriminate].
  injection Hfetch as ->.
  destruct (scrape_loop_run env u (find_all_img env (text resp)) []
              {| sent := sent w ++ [page_request u];
                 stdout := stdout w ++ [FetchingHtml u] |})
    as (w2 & Hloop & Hsent).
  unfold bind at 1. rewrite Hloop. cbn [sent] in Hsent.
  unfold bind, ret. cbn.
  eexists; split; [reflexivity|]. exact Hsent.
Qed.

(** The web-page route when the page cannot be fetched. *)
Lemma scrape_webpage_unreachable (env : Externals) (u : string) (w : World) :
  fetch_ok (respond env (sent w) (page_request u)) = None ->
  exists w',
    scrape_webpage env u w = (Ok [], w')
    /\ sent w' = sent w ++ [page_request u].
Proof.
  intros Hfetch. unfold fetch_ok in Hfetch.
  unfold scrape_webpage, bind at 1, print.
  unfold bind at 1, try_except, bind at 1, requests_get.
  fold (page_request u). cbn [sent stdout].
  destruct (respond env (sent w) (page_request u)) as [r|e].
  - unfold bind at 1, lift.
    destruct (raise_for_status r) as [[]|e]; [discriminate|].
    cbn. eexists; split; reflexivity.
  - cbn. eexists; split; reflexivity.
Qed.

(* ================================================================== *)
(** ** The web-page route *)

(** C5. When the call reaches the web-page route and the page is fetched,
    [extract_images_from_url] returns normally.  With K the number of img
    elements that carry a source, there are K outcomes, one per element in
    document order, each the converted image of that element or nothing
    when its fetch or its conversion fails; the result is the list of the
    successes in that order, so it has at most K elements, and every
    source has been requested whatever happened to the ones before it. *)
Theorem scrape_collects_in_document_order :
  forall (env : Externals) (url : string) (w w1 : World) (resp : Response),
    let u := PyStr.strip url in
    falls_to_webpage env u w w1 ->
    fetch_ok (respond env (sent w1) (page_request u)) = Some resp ->
    let srcs := image_sources (find_all_img env (text resp)) in
    let results := outcomes env u (sent w1 ++ [page_request u]) srcs in
    exists w',
      extract_images_from_url env url w = (Ok (successes results), w')
      /\ List.length results = List.length srcs
      /\ List.length (successes results) <= List.length srcs
      /\ sent w' = (sent w1 ++ [page_request u]) ++ map (source_request u) srcs.
Proof.
  intros env url w w1 resp u [Hdirect Hattempt] Hfetch srcs results.
  destruct (scrape_webpage_run env u w1 resp Hfetch) as (w' & Hrun & Hsent).
  exists w'. repeat split.
  - unfold extract_images_from_url. fold u. rewrite Hdirect.
    unfold bind. rewrite Hattempt. exact Hrun.
  - apply outcomes_length.
  - subst results. rewrite <- (outcomes_length env u srcs
                                 (sent w1 ++ [page_request u])).
    apply successes_length.
  - exact Hsent.
Qed.

Lemma scrape_collects_in_document_order_witness :
  falls_to_webpage Samples.sample_env "https://example.com/page.html"
    world0 world0
  /\ fetch_ok (respond Samples.sample_env []
                 (page_request "https://example.com/page.html"))
     = Some Samples.html_response
  /\ exists w',
       extract_images_from_url Samples.sample_env
         " https://example.com/page.html " world0
       = (Ok [[x03; x02; x02]; [x03; x05; x07]], w')
       /\ 2 = 2
       /\ 2 <= 2
       /\ sent w'
          = [page_request "https://example.com/page.html";
             image_request "https://example.com/a.png";
             image_request "https://cdn.example.com/b.png"].
Proof.
  split; [split; reflexivity|]. split; [reflexivity|].
  exact (scrape_collects_in_document_order Samples.sample_env
           " https://example.com/page.html " world0 world0
           Samples.html_response (conj eq_refl eq_refl) eq_refl).
Defined.

(* ================================================================== *)
(** ** The direct-link route *)

Lemma toy_encoder_nonempty : EncoderNonEmpty Samples.sample_env.
Proof.
  intros b f out H. simpl in H. unfold Samples.toy_save in H.
  destruct f; try discriminate. destruct (mode b); try discriminate.
  destruct ((0 <=? width b) && (0 <=? height b))%Z; [|discriminate].
  destruct (Byte.of_N (Z.to_N (width b))); [|discriminate].
  destruct (Byte.of_N (Z.to_N (height b))); [|discriminate].
  injection H as <-. discriminate.
Qed.

(** C3, as the code has it.  For a URL whose stripped, lower-cased text
    ends with one of the image extensions, whenever the fetch succeeds the
    call returns normally a list of at most one element: the converted
    image when the conversion succeeds, the empty list when it fails; one
    request has been sent. *)
Theorem direct_link_at_most_one :
  forall (env : Externals) (url : string) (w : World) (resp : Response),
    let u := PyStr.strip url in
    is_direct_link u = true ->
    EncoderNonEmpty env ->
    fetch_ok (respond env (sent w) (image_request u)) = Some resp ->
    exists images w',
      extract_images_from_url env url w = (Ok images, w')
      /\ List.length images <= 1
      /\ (forall out, decoded env (content resp) = Ok out -> images = [out])
      /\ (forall e, decoded env (content resp) = Raise e -> images = [])
      /\ sent w' = sent w ++ [image_request u].
Proof.
  intros env url w resp u Hdirect Hne Hfetch.
  unfold extract_images_from_url. fold u. rewrite Hdirect.
  unfold bind at 1, print. unfold bind at 1.
  rewrite download_and_convert_run. cbv zeta. cbn [sent].
  unfold fetch_ok in Hfetch.
  destruct (respond env (sent w) (image_request u)) as [r|e]; [|discriminate].
  destruct (raise_for_status r) as [[]|e]; [|discriminate].
  injection Hfetch as ->. rewrite normalize_run.
  assert (Hout : forall out, decoded env (content resp) = Ok out -> out <> []).
  { unfold decoded. intros out H.
    destruct (Image_open env (content resp)); [|discriminate].
    destruct (Image_convert env a ModeRGB); [|discriminate].
    exact (Hne _ _ _ H). }
  destruct (decoded env (content resp)) as [out|e].
  - destruct out as [|b r]; [now destruct (Hout [] eq_refl)|].
    cbn. do 2 eexists. split; [reflexivity|].
    repeat split; try (simpl; lia).
    + intros out H. now injection H as <-.
    + intros e H. discriminate H.
  - cbn. do 2 eexists. split; [reflexivity|].
    repeat split; try (simpl; lia).
    intros out H. discriminate H.
Qed.

Lemma direct_link_at_most_one_witness :
  is_direct_link "https://example.com/photo.jpg" = true
  /\ EncoderNonEmpty Samples.sample_env
  /\ fetch_ok (respond Samples.sample_env []
                 (image_request "https://example.com/photo.jpg"))
     = Some (Samples.image_response [x03; x08; x06])
  /\ exists images w',
       extract_images_from_url Samples.sample_env
         "https://example.com/photo.jpg" world0 = (Ok images, w')
       /\ List.length images <= 1
       /\ (forall out,
             decoded Samples.sample_env [x03; x08; x06] = Ok out ->
             images = [out])
       /\ (forall e,
             decoded Samples.sample_env [x03; x08; x06] = Raise e ->
             images = [])
       /\ sent w' = [image_request "https://example.com/photo.jpg"].
Proof.
  split; [reflexivity|]. split; [exact toy_encoder_nonempty|].
  split; [reflexivity|].
  exact (direct_link_at_most_one Samples.sample_env
           "https://example.com/photo.jpg" world0
           (Samples.image_response [x03; x08; x06])
           eq_refl toy_encoder_nonempty eq_refl).
Defined.

(** C3 as worded fails: the trailing path segment of this URL ends in
    [.jpg], the query string after it keeps the call off the direct-link
    route, the address serves a page, and two images come back. *)
Lemma trailing_segment_counterexample :
  trailing_segment_has_image_extension "https://example.com/photo.jpg?w=400"
  = true
  /\ is_direct_link (PyStr.strip "https://example.com/photo.jpg?w=400") = false
  /\ exists images,
       fst (extract_images_from_url Samples.sample_env
              "https://example.com/photo.jpg?w=400" world0) = Ok images
       /\ ~ List.length images <= 1.
Proof.
  split; [reflexivity|]. split; [reflexivity|].
  exists [[x03; x02; x02]; [x03; x05; x07]].
  split; [reflexivity|]. simpl. lia.
Qed.

(* ================================================================== *)
(** ** The image-like route *)

(** C4, the code at a failing input.  The URL holds [/img/] and is no
    direct link; the first request times out.  The exception of the
    single-image attempt leaves [extract_images_from_url]: the line that
    announces the fall-through is never printed and the page is never
    requested, although the web-page route, entered from the world the
    failure leaves, would have found the two images of the page. *)
Theorem image_like_fetch_failure_raises :
  is_direct_link "https://example.com/img/gallery" = false
  /\ is_image_like "https://example.com/img/gallery" = true
  /\ extract_images_from_url Samples.flaky_env
       "https://example.com/img/gallery" world0
     = (Raise ReadTimeout,
        {| sent := [image_request "https://example.com/img/gallery"];
           stdout := [ImageLikeDetected "https://example.com/img/gallery"] |})
  /\ fst (scrape_webpage Samples.flaky_env "https://example.com/img/gallery"
            {| sent := [image_request "https://example.com/img/gallery"];
               stdout := [ImageLikeDetected
                            "https://example.com/img/gallery"] |})
     = Ok [[x03; x02; x02]; [x03; x05; x07]].
Proof.
  repeat split; reflexivity.
Qed.

(** On either single-image route a failed fetch leaves the call as an
    exception. *)
Lemma single_image_fetch_failure_raises (env : Externals) (url : string)
    (w : World) (e : Exn) :
  let u := PyStr.strip url in
  is_direct_link u = true \/ is_image_like u = true ->
  respond env (sent w) (image_request u) = Raise e ->
  fst (extract_images_from_url env url w) = Raise e.
Proof.
  intros u Hroute Hfail. unfold extract_images_from_url. fold u.
  destruct (is_direct_link u) eqn:Hd.
  - unfold bind at 1, print. unfold bind at 1.
    rewrite download_and_convert_run. cbv zeta. cbn [sent].
    now rewrite Hfail.
  - destruct Hroute as [Hroute|Hroute]; [discriminate|].
    unfold bind at 1, image_like_attempt. rewrite Hroute.
    unfold bind at 1, print. unfold bind at 1.
    rewrite download_and_convert_run. cbv zeta. cbn [sent].
    now rewrite Hfail.
Qed.

(* ================================================================== *)
(** ** What is sent over the network *)

Lemma sends_ret {A} (P : Request -> Prop) (a : A) : sends P (ret a).
Proof. intros w. exists []. now rewrite app_nil_r. Qed.

Lemma sends_lift {A} (P : Request -> Prop) (r : Result A) : sends P (lift r).
Proof. intros w. exists []. now rewrite app_nil_r. Qed.

Lemma sends_print (P : Request -> Prop) (l : LogLine) : sends P (print l).
Proof. intros w. exists []. simpl. now rewrite app_nil_r. Qed.

Lemma sends_bind {A B} (P : Request -> Prop) (c : M A) (k : A -> M B) :
  sends P c -> (forall a, sends P (k a)) -> sends P (bind c k).
Proof.
  intros Hc Hk w. unfold bind.
  destruct (Hc w) as (n1 & H1 & F1).
  destruct (c w) as [[a|e] w1]; simpl in H1.
  - destruct (Hk a w1) as (n2 & H2 & F2).
    exists (n1 ++ n2). rewrite H2, H1, app_assoc. split; [reflexivity|].
    apply Forall_app; now split.
  - exists n1. now split.
Qed.

Lemma sends_try_except {A} (P : Request -> Prop) (c : M A) (h : Exn -> M A) :
  sends P c -> (forall e, sends P (h e)) -> sends P (try_except c h).
Proof.
  intros Hc Hh w. unfold try_except.
  destruct (Hc w) as (n1 & H1 & F1).
  destruct (c w) as [[a|e] w1]; simpl in H1.
  - exists n1. now split.
  - destruct (Hh e w1) as (n2 & H2 & F2).
    exists (n1 ++ n2). rewrite H2, H1, app_assoc. split; [reflexivity|].
    apply Forall_app; now split.
Qed.

Lemma sends_requests_get (env : Externals) (P : Request -> Prop)
    (url : string) (timeout : option Z) (headers : list (string * string)) :
  P {| req_url := url; req_timeout := timeout; req_headers := headers |} ->
  sends P (requests_get env url timeout headers).
Proof.
  intros HP w. eexists. split; [reflexivity|]. now constructor.
Qed.

Lemma sends_normalize (env : Externals) (P : Request -> Prop)
    (img_url : string) (buf : bytes) :
  sends P (normalize env img_url buf).
Proof.
  intros w. exists []. now rewrite normalize_sent, app_nil_r.
Qed.

Create HintDb sends_db.
#[local] Hint Resolve sends_ret sends_lift sends_print sends_normalize
  : sends_db.

Lemma sends_download_and_convert (env : Externals) (P : Request -> Prop)
    (src : string) :
  P (image_request src) -> sends P (download_and_convert env src).
Proof.
  intros HP. unfold download_and_convert.
  apply sends_bind; [now apply sends_requests_get|]. intros resp.
  apply sends_bind; auto with sends_db.
Qed.

Lemma sends_scrape_loop (env : Externals) (P : Request -> Prop)
    (url : string) (tags : list Tag) :
  (forall src, P (image_request src)) ->
  forall images, sends P (scrape_loop env url tags images).
Proof.
  intros HP. induction tags as [|tag rest IH]; intros images; simpl.
  - auto with sends_db.
  - destruct (tag_get tag "src") as [src|]; [|apply IH].
    destruct (String.eqb src ""); [apply IH|].
    apply sends_bind; [|intros; apply IH].
    apply sends_try_except.
    + apply sends_bind; [now apply sends_download_and_convert|].
      intros o. destruct (truthy o); auto with sends_db.
    + intros e. apply sends_bind; auto with sends_db.
Qed.

(** Every request of a call has the timeout 10; every image request
    carries the browser identification; the only other request is the
    page request, which carries no header. *)
Lemma requests_discipline (env : Externals) (url : string) :
  sends (fun rq =>
           has_timeout_10 rq = true
           /\ (has_browser_agent rq = true
               \/ rq = page_request (PyStr.strip url)))
        (extract_images_from_url env url).
Proof.
  set (P := fun rq => _).
  assert (Himg : forall src, P (image_request src)).
  { intros src. split; [reflexivity|]. left. reflexivity. }
  assert (Hpage : P (page_request (PyStr.strip url))).
  { split; [reflexivity|]. now right. }
  unfold extract_images_from_url.
  destruct (is_direct_link (PyStr.strip url)).
  - apply sends_bind; auto with sends_db. intros _.
    apply sends_bind; [now apply sends_download_and_convert|].
    intros o. destruct (truthy o); auto with sends_db.
  - apply sends_bind.
    + unfold image_like_attempt.
      destruct (is_image_like (PyStr.strip url)); auto with sends_db.
      apply sends_bind; auto with sends_db. intros _.
      apply sends_bind; [now apply sends_download_and_convert|].
      intros o. destruct (truthy o); auto with sends_db.
      apply sends_bind; auto with sends_db.
    + intros [l|]; auto with sends_db.
      unfold scrape_webpage.
      apply sends_bind; auto with sends_db. intros _.
      apply sends_bind.
      * apply sends_try_except.
        -- apply sends_bind; [now apply sends_requests_get|]. intros resp.
           apply sends_bind; auto with sends_db. intros _.
           apply sends_bind; [now apply sends_scrape_loop|].
           auto with sends_db.
        -- intros e. apply sends_bind; auto with sends_db.
      * intros [images|]; auto with sends_db.
        apply sends_bind; auto with sends_db.
Qed.

(** C7, the code at a failing input.  Scraping the sample page sends
    three requests, all with the timeout 10; the two image requests carry
    the browser identification, the page request carries no header. *)
Theorem page_fetch_without_browser_agent :
  sent (snd (extract_images_from_url Samples.sample_env
               "https://example.com/page.html" world0))
  = [page_request "https://example.com/page.html";
     image_request "https://example.com/a.png";
     image_request "https://cdn.example.com/b.png"]
  /\ req_headers (page_request "https://example.com/page.html") = []
  /\ has_browser_agent (page_request "https://example.com/page.html") = false
  /\ has_browser_agent (image_request "https://example.com/a.png") = true
  /\ forallb has_timeout_10
       (sent (snd (extract_images_from_url Samples.sample_env
                     "https://example.com/page.html" world0))) = true.
Proof.
  repeat split; reflexivity.
Qed.

(* ================================================================== *)
(** ** Stripping and lower-casing *)

Lemma append_assoc (a b c : string) :
  ((a ++ b) ++ c = a ++ (b ++ c))%string.
Proof. induction a as [|x a IH]; simpl; [reflexivity|now rewrite IH]. Qed.

Lemma append_nil_r (a : string) : (a ++ "" = a)%string.
Proof. induction a as [|x a IH]; simpl; [reflexivity|now rewrite IH]. Qed.

Lemma rstrip_all_space (s : string) :
  PyStr.all_space s = true -> PyStr.rstrip s = "".
Proof.
  induction s as [|c r IH]; simpl; [reflexivity|].
  intros H. apply andb_true_iff in H as [Hc Hr].
  now rewrite (IH Hr), Hc.
Qed.

Lemma rstrip_app_space (s post : string) :
  PyStr.all_space post = true -> PyStr.rstrip (s ++ post) = PyStr.rstrip s.
Proof.
  intros Hpost. induction s as [|c r IH]; simpl.
  - now apply rstrip_all_space.
  - now rewrite IH.
Qed.

Lemma lstrip_app_space (pre t : string) :
  PyStr.all_space pre = true -> PyStr.lstrip (pre ++ t) = PyStr.lstrip t.
Proof.
  induction pre as [|c p IH]; simpl; [reflexivity|].
  intros H. apply andb_true_iff in H as [Hc Hp]. rewrite Hc. now apply IH.
Qed.

Lemma strip_space_app (pre t : string) :
  PyStr.all_space pre = true -> PyStr.strip (pre ++ t) = PyStr.strip t.
Proof.
  unfold PyStr.strip. induction pre as [|c p IH]; simpl; [reflexivity|].
  intros H. apply andb_true_iff in H as [Hc Hp]. specialize (IH Hp).
  destruct (PyStr.rstrip (p ++ t)) as [|d r'].
  - rewrite Hc. exact IH.
  - cbn [PyStr.lstrip]. rewrite Hc. exact IH.
Qed.

Lemma strip_surrounding (pre s post : string) :
  PyStr.all_space pre = true -> PyStr.all_space post = true ->
  PyStr.strip (pre ++ s ++ post) = PyStr.strip s.
Proof.
  intros Hpre Hpost. rewrite (strip_space_app _ _ Hpre).
  unfold PyStr.strip. now rewrite (rstrip_app_space _ _ Hpost).
Qed.

Lemma isspace_lower_char (c : ascii) :
  PyStr.isspace (PyStr.lower_char c) = PyStr.isspace c.
Proof.
  destruct c as [[] [] [] [] [] [] [] []]; reflexivity.
Qed.

Lemma lstrip_lower (s : string) :
  PyStr.lstrip (PyStr.lower s) = PyStr.lower (PyStr.lstrip s).
Proof.
  induction s as [|c r IH]; simpl; [reflexivity|].
  rewrite isspace_lower_char. now destruct (PyStr.isspace c).
Qed.

Lemma rstrip_lower (s : string) :
  PyStr.rstrip (PyStr.lower s) = PyStr.lower (PyStr.rstrip s).
Proof.
  induction s as [|c r IH]; simpl; [reflexivity|].
  rewrite IH, isspace_lower_char.
  destruct (PyStr.rstrip r); simpl; [|reflexivity].
  now destruct (PyStr.isspace c).
Qed.

Lemma strip_lower (s : string) :
  PyStr.lower (PyStr.strip s) = PyStr.strip (PyStr.lower s).
Proof.
  unfold PyStr.strip. now rewrite rstrip_lower, lstrip_lower.
Qed.

(** The code follows the route the guards choose. *)
Lemma extract_images_from_url_by_route (env : Externals) (url : string)
    (w : World) :
  extract_images_from_url env url w
  = match route url with
    | DirectRoute =>
        (print (DirectImageDetected (PyStr.strip url)) ;;;
         img_bytes <- download_and_convert env (PyStr.strip url) ;;
         if truthy img_bytes then ret [the_bytes img_bytes] else ret []) w
    | ImageLikeRoute =>
        (print (ImageLikeDetected (PyStr.strip url)) ;;;
         img_bytes <- download_and_convert env (PyStr.strip url) ;;
         if truthy img_bytes then ret [the_bytes img_bytes]
         else print FailedDirectTryingWebpage ;;;
              scrape_webpage env (PyStr.strip url)) w
    | WebpageRoute => scrape_webpage env (PyStr.strip url) w
    end.
Proof.
  unfold extract_images_from_url, route, image_like_attempt.
  destruct (is_direct_link (PyStr.strip url)); [reflexivity|].
  destruct (is_image_like (PyStr.strip url)).
  - unfold bind, print, ret.
    destruct (download_and_convert env (PyStr.strip url) _) as [[o|e] w1];
      [|reflexivity].
    now destruct (truthy o).
  - reflexivity.
Qed.

(** C10. The URL is stripped before any branch is chosen: two URLs that
    differ only in surrounding white space give the same run, result and
    world alike, and choose the same route.  Both guards read the
    lower-cased text: two URLs that differ only in letter case choose the
    same route. *)
Theorem url_whitespace_and_case :
  forall (env : Externals) (pre post url url' : string) (w : World),
    PyStr.all_space pre = true ->
    PyStr.all_space post = true ->
    PyStr.lower url' = PyStr.lower url ->
    extract_images_from_url env (pre ++ url ++ post) w
    = extract_images_from_url env url w
    /\ route (pre ++ url ++ post) = route url
    /\ is_direct_link (PyStr.strip url') = is_direct_link (PyStr.strip url)
    /\ is_image_like (PyStr.strip url') = is_image_like (PyStr.strip url)
    /\ route url' = route url.
Proof.
  intros env pre post url url' w Hpre Hpost Hcase.
  assert (Hstrip := strip_surrounding pre url post Hpre Hpost).
  assert (Hlow : PyStr.lower (PyStr.strip url')
                 = PyStr.lower (PyStr.strip url))
    by (now rewrite !strip_lower, Hcase).
  repeat split.
  - unfold extract_images_from_url. now rewrite Hstrip.
  - unfold route. now rewrite Hstrip.
  - unfold is_direct_link. now rewrite Hlow.
  - unfold is_image_like. now rewrite Hlow.
  - unfold route, is_direct_link, is_image_like. now rewrite Hlow.
Qed.

Lemma url_whitespace_and_case_witness :
  PyStr.all_space "  " = true
  /\ PyStr.all_space " " = true
  /\ PyStr.lower "HTTPS://Example.COM/Photo.JPG"
     = PyStr.lower "https://example.com/photo.jpg"
  /\ extract_images_from_url Samples.sample_env
       "  https://example.com/photo.jpg " world0
     = extract_images_from_url Samples.sample_env
         "https://example.com/photo.jpg" world0
  /\ route "  https://example.com/photo.jpg " = DirectRoute
  /\ route "HTTPS://Example.COM/Photo.JPG" = DirectRoute.
Proof.
  split; [reflexivity|]. split; [reflexivity|]. split; [reflexivity|].
  pose proof (url_whitespace_and_case Samples.sample_env "  " " "
                "https://example.com/photo.jpg"
                "HTTPS://Example.COM/Photo.JPG" world0
                eq_refl eq_refl eq_refl) as (H1 & H2 & _ & _ & H5).
  split; [exact H1|]. split; [exact H2|exact H5].
Defined.

(* ================================================================== *)
(** ** Rewriting the sources of a page *)

Lemma lacks_app (c : ascii) (a b : string) :
  PyStr.lacks c (a ++ b) = PyStr.lacks c a && PyStr.lacks c b.
Proof.
  induction a as [|x a IH]; simpl; [reflexivity|].
  now rewrite IH, andb_assoc.
Qed.

Lemma split_lacks (sep : ascii) (a : string) :
  PyStr.lacks sep a = true -> PyStr.split sep a = [a].
Proof.
  induction a as [|x a IH]; simpl; [reflexivity|].
  intros H. apply andb_true_iff in H as [Hx Ha].
  apply negb_true_iff in Hx. now rewrite Hx, (IH Ha).
Qed.

Lemma split_app_sep (sep : ascii) (a r : string) :
  PyStr.lacks sep a = true ->
  PyStr.split sep (a ++ String sep r) = a :: PyStr.split sep r.
Proof.
  induction a as [|x a IH]; simpl.
  - intros _. now rewrite Ascii.eqb_refl.
  - intros H. apply andb_true_iff in H as [Hx Ha].
    apply negb_true_iff in Hx. now rewrite Hx, (IH Ha).
Qed.

Lemma startswith_slash (s : string) :
  PyStr.startswith s "/" = true -> exists r, s = String "/" r.
Proof.
  unfold PyStr.startswith. destruct s as [|c r]; cbn [String.prefix];
    [discriminate|].
  destruct (ascii_dec "/" c) as [<-|]; [|discriminate].
  intros _. now exists r.
Qed.

(** The base the loop computes from the URL of the page: its scheme and
    host, when the URL has the shape scheme://host or scheme://host/... *)
Lemma page_base (scheme host rest : string) :
  PyStr.lacks "/" scheme = true ->
  PyStr.lacks "/" host = true ->
  rest = "" \/ PyStr.startswith rest "/" = true ->
  PyStr.join "/" (firstn 3 (PyStr.split "/" (scheme ++ "://" ++ host ++ rest)))
  = (scheme ++ "://" ++ host)%string.
Proof.
  intros Hs Hh Hrest.
  assert (Hshape : (scheme ++ "://" ++ host ++ rest
                    = (scheme ++ ":") ++ String "/" (String "/" (host ++ rest)))
                   %string)
    by (now rewrite append_assoc).
  assert (Hsc : PyStr.lacks "/" (scheme ++ ":") = true)
    by (now rewrite lacks_app, Hs).
  rewrite Hshape, (split_app_sep _ _ _ Hsc).
  change (PyStr.split "/" (String "/" (host ++ rest)))
    with (EmptyString :: PyStr.split "/" (host ++ rest)).
  assert (Hhead : firstn 1 (PyStr.split "/" (host ++ rest)) = [host]).
  { destruct Hrest as [->|Hr].
    - now rewrite append_nil_r, (split_lacks _ _ Hh).
    - destruct (startswith_slash _ Hr) as (r & ->).
      now rewrite (split_app_sep _ _ _ Hh). }
  change (firstn 3 ((scheme ++ ":")%string :: EmptyString
                    :: PyStr.split "/" (host ++ rest)))
    with ((scheme ++ ":")%string :: EmptyString
          :: firstn 1 (PyStr.split "/" (host ++ rest))).
  rewrite Hhead. unfold PyStr.join. cbn [String.concat].
  now rewrite append_assoc.
Qed.

(** C6, as the code has it.  A source that starts with two slashes is
    given the fixed scheme [https:], whatever the scheme of the page; a
    source that starts with one slash is appended to the scheme and host
    of the page; and for the page https://example.com/page.html with the
    sources /a.png and //cdn.example.com/b.png the call requests the page,
    then https://example.com/a.png, then https://cdn.example.com/b.png. *)
Theorem rewrite_src_resolution :
  (forall page src : string,
     PyStr.startswith src "//" = true ->
     rewrite_src page src = ("https:" ++ src)%string)
  /\
  (forall scheme host rest src : string,
     PyStr.lacks "/" scheme = true ->
     PyStr.lacks "/" host = true ->
     rest = "" \/ PyStr.startswith rest "/" = true ->
     PyStr.startswith src "/" = true ->
     PyStr.startswith src "//" = false ->
     rewrite_src (scheme ++ "://" ++ host ++ rest) src
     = (scheme ++ "://" ++ host ++ src)%string)
  /\
  (forall (env : Externals) (w : World) (resp : Response),
     fetch_ok (respond env (sent w)
                 (page_request "https://example.com/page.html")) = Some resp ->
     image_sources (find_all_img env (text resp))
     = ["/a.png"; "//cdn.example.com/b.png"] ->
     sent (snd (extract_images_from_url env
                  "https://example.com/page.html" w))
     = sent w ++ [page_request "https://example.com/page.html";
                  image_request "https://example.com/a.png";
                  image_request "https://cdn.example.com/b.png"]).
Proof.
  split; [|split].
  - intros page src H. unfold rewrite_src. now rewrite H.
  - intros scheme host rest src Hs Hh Hrest H1 H2.
    unfold rewrite_src. rewrite H2, H1, (page_base _ _ _ Hs Hh Hrest).
    now rewrite !append_assoc.
  - intros env w resp Hfetch Hsrcs.
    rewrite extract_images_from_url_by_route.
    change (route "https://example.com/page.html") with WebpageRoute.
    change (PyStr.strip "https://example.com/page.html")
      with "https://example.com/page.html".
    destruct (scrape_webpage_run env _ w resp Hfetch) as (w' & Hrun & Hsent).
    rewrite Hrun. cbn [snd]. rewrite Hsent, Hsrcs, <- app_assoc.
    reflexivity.
Qed.

Lemma rewrite_src_resolution_witness :
  rewrite_src "http://example.com/page.html" "//cdn.example.com/b.png"
  = "https://cdn.example.com/b.png"
  /\ rewrite_src "http://example.com:8080/docs/page.html" "/a.png"
     = "http://example.com:8080/a.png"
  /\ sent (snd (extract_images_from_url Samples.sample_env
                  "https://example.com/page.html" world0))
     = [page_request "https://example.com/page.html";
        image_request "https://example.com/a.png";
        image_request "https://cdn.example.com/b.png"].
Proof.
  destruct rewrite_src_resolution as (Hproto & Hroot & Hscenario).
  split; [|split].
  - exact (Hproto "http://example.com/page.html" "//cdn.example.com/b.png"
             eq_refl).
  - exact (Hroot "http" "example.com:8080" "/docs/page.html" "/a.png"
             eq_refl eq_refl (or_intror eq_refl) eq_refl eq_refl).
  - exact (Hscenario Samples.sample_env world0 Samples.html_response
             eq_refl eq_refl).
Defined.

(** C6 as worded fails: on a page served over http the code fetches a
    protocol-relative source over https, not over the scheme of the
    page. *)
Lemma protocol_relative_counterexample :
  rewrite_src "http://example.com/page.html" "//cdn.example.com/b.png"
  = "https://cdn.example.com/b.png"
  /\ resolve_protocol_relative "http://example.com/page.html"
       "//cdn.example.com/b.png"
     = "http://cdn.example.com/b.png"
  /\ rewrite_src "http://example.com/page.html" "//cdn.example.com/b.png"
     <> resolve_protocol_relative "http://example.com/page.html"
          "//cdn.example.com/b.png"
  /\ sent (snd (extract_images_from_url Samples.sample_env
                  "http://example.com/page.html" world0))
     = [page_request "http://example.com/page.html";
        image_request "http://example.com/a.png";
        image_request "https://cdn.example.com/b.png"].
Proof.
  split; [reflexivity|]. split; [reflexivity|]. split; [|reflexivity].
  intros H. discriminate H.
Qed.

(* ================================================================== *)
(** ** Further properties of the extraction module *)

Lemma pdf_page_loop_invalid (doc : Document) (imgs : list ImgTuple) :
  forallb (extractable doc) imgs = false ->
  forall images, exists e, pdf_page_loop doc imgs images = Raise e.
Proof.
  induction imgs as [|img rest IH]; simpl; [discriminate|].
  intros H images. unfold extractable at 1 in H.
  destruct (extract_image doc (xref img)) as [[b|]|e]; simpl in *.
  - apply IH, H.
  - now eexists.
  - now eexists.
Qed.

Lemma pdf_doc_loop_invalid (doc : Document) (ps : list Page) :
  forallb (valid_page doc) ps = false ->
  forall images, exists e, pdf_doc_loop doc ps images = Raise e.
Proof.
  induction ps as [|p rest IH]; simpl; [discriminate|].
  intros H images. unfold valid_page at 1 in H.
  destruct (get_images p) as [imgs|e]; [|now eexists].
  destruct (forallb (extractable doc) imgs) eqn:Hp; simpl in H.
  - rewrite (pdf_page_loop_valid _ _ _ Hp). apply IH, H.
  - destruct (pdf_page_loop_invalid _ _ Hp images) as (e & ->). now eexists.
Qed.

(** When a document opens but one of its pages cannot list its images, or
    one listed image cannot be extracted, [extract_images_from_pdf] raises
    and returns no list, also when images before the failing one were
    extracted. *)
Theorem pdf_extraction_all_or_nothing :
  forall (env : Externals) (pdf_path : string) (doc : Document),
    fitz_open env pdf_path = Ok doc ->
    valid_document doc = false ->
    exists e, extract_images_from_pdf env pdf_path = Raise e.
Proof.
  intros env pdf_path doc Hopen Hbad.
  unfold extract_images_from_pdf. rewrite Hopen.
  exact (pdf_doc_loop_invalid doc (pages doc) Hbad []).
Qed.

Lemma pdf_extraction_all_or_nothing_witness :
  fitz_open MoreSamples.photo_env "broken.pdf" = Ok MoreSamples.broken_doc
  /\ valid_document MoreSamples.broken_doc = false
  /\ extractable MoreSamples.broken_doc (Samples.mk_img 5) = true
  /\ exists e, extract_images_from_pdf MoreSamples.photo_env "broken.pdf"
               = Raise e.
Proof.
  split; [reflexivity|]. split; [reflexivity|]. split; [reflexivity|].
  exact (pdf_extraction_all_or_nothing MoreSamples.photo_env "broken.pdf"
           MoreSamples.broken_doc eq_refl eq_refl).
Defined.

(** [normalize] never raises: it returns the encoded bytes when the three
    Pillow calls succeed and [None] as soon as one of them raises. *)
Theorem normalize_never_raises :
  forall (env : Externals) (img_url : string) (buf : bytes) (w : World),
    exists o w',
      normalize env img_url buf w = (Ok o, w')
      /\ (o = None <-> exists e, decoded env buf = Raise e)
      /\ (forall out, o = Some out <-> decoded env buf = Ok out).
Proof.
  intros env img_url buf w. rewrite normalize_run.
  destruct (decoded env buf) as [out|e]; do 2 eexists;
    (split; [reflexivity|]); split.
  - split; [discriminate|]. intros (e & H). discriminate H.
  - intros o. split; intros H; now injection H as <-.
  - split; [now exists e|reflexivity].
  - intros o. split; discriminate.
Qed.

(** [download_and_convert] sends exactly one request.  It raises exactly
    when the fetch fails, by an error of the client or by a status from
    400 to 599; once the fetch has succeeded it returns, the converted
    bytes or [None]. *)
Theorem download_and_convert_outcome :
  forall (env : Externals) (src : string) (w : World),
    sent (snd (download_and_convert env src w))
    = sent w ++ [image_request src]
    /\ (fetch_ok (respond env (sent w) (image_request src)) = None ->
        exists e, fst (download_and_convert env src w) = Raise e)
    /\ (forall resp,
          fetch_ok (respond env (sent w) (image_request src)) = Some resp ->
          fst (download_and_convert env src w)
          = Ok (result_to_option (decoded env (content resp)))).
Proof.
  intros env src w. split; [apply download_and_convert_sent|].
  rewrite download_and_convert_run. cbv zeta. unfold fetch_ok.
  destruct (respond env (sent w) (image_request src)) as [r|e].
  - destruct (raise_for_status r) as [[]|e].
    + split; [discriminate|]. intros resp H. injection H as <-.
      apply normalize_result.
    + split; [now eexists|discriminate].
  - split; [now eexists|discriminate].
Qed.

Lemma download_and_convert_outcome_witness :
  fetch_ok (respond Samples.sample_env []
              (image_request "https://example.com/nothing.png")) = None
  /\ fetch_ok (respond Samples.sample_env []
                 (image_request "https://example.com/page.html"))
     = Some Samples.html_response
  /\ (exists e, fst (download_and_convert Samples.sample_env
                       "https://example.com/nothing.png" world0) = Raise e)
  /\ fst (download_and_convert Samples.sample_env
            "https://example.com/page.html" world0) = Ok None.
Proof.
  split; [reflexivity|]. split; [reflexivity|].
  destruct (download_and_convert_outcome Samples.sample_env
              "https://example.com/nothing.png" world0) as (_ & Hfail & _).
  destruct (download_and_convert_outcome Samples.sample_env
              "https://example.com/page.html" world0) as (_ & _ & Hok).
  split; [exact (Hfail eq_refl)|].
  exact (Hok Samples.html_response eq_refl).
Defined.

(** On the direct-link route exactly one request is sent, the image
    request for the stripped URL, whatever comes of it: the page is never
    scraped. *)
Theorem direct_route_sends_one_request :
  forall (env : Externals) (url : string) (w : World),
    route url = DirectRoute ->
    sent (snd (extract_images_from_url env url w))
    = sent w ++ [image_request (PyStr.strip url)].
Proof.
  intros env url w Hroute.
  rewrite extract_images_from_url_by_route, Hroute.
  unfold bind at 1, print. unfold bind at 1.
  match goal with
  | |- context [download_and_convert env ?u ?w1] =>
      pose proof (download_and_convert_sent env u w1) as Hs;
      destruct (download_and_convert env u w1) as [[o|e] w2]
  end; cbn [snd sent] in Hs.
  - destruct (truthy o); exact Hs.
  - exact Hs.
Qed.

Lemma direct_route_sends_one_request_witness :
  route " https://example.com/nothing.png" = DirectRoute
  /\ sent (snd (extract_images_from_url Samples.sample_env
                  " https://example.com/nothing.png" world0))
     = [image_request "https://example.com/nothing.png"].
Proof.
  split; [reflexivity|].
  exact (direct_route_sends_one_request Samples.sample_env
           " https://example.com/nothing.png" world0 eq_refl).
Defined.

(** On the web-page route, when the page cannot be fetched, by an error of
    the client or by a status from 400 to 599, the call returns the empty
    list normally and has sent the page request only. *)
Theorem webpage_unreachable_gives_empty :
  forall (env : Externals) (url : string) (w : World),
    route url = WebpageRoute ->
    fetch_ok (respond env (sent w) (page_request (PyStr.strip url))) = None ->
    exists w',
      extract_images_from_url env url w = (Ok [], w')
      /\ sent w' = sent w ++ [page_request (PyStr.strip url)].
Proof.
  intros env url w Hroute Hfetch.
  rewrite extract_images_from_url_by_route, Hroute.
  now apply scrape_webpage_unreachable.
Qed.

Lemma webpage_unreachable_gives_empty_witness :
  route "https://example.com/gone.html" = WebpageRoute
  /\ fetch_ok (respond Samples.sample_env []
                 (page_request "https://example.com/gone.html")) = None
  /\ exists w',
       extract_images_from_url Samples.sample_env
         "https://example.com/gone.html" world0 = (Ok [], w')
       /\ sent w' = [page_request "https://example.com/gone.html"].
Proof.
  split; [reflexivity|]. split; [reflexivity|].
  exact (webpage_unreachable_gives_empty Samples.sample_env
           "https://example.com/gone.html" world0 eq_refl eq_refl).
Defined.

Lemma scrape_webpage_first_request (env : Externals) (u : string) (w : World) :
  exists rest,
    sent (snd (scrape_webpage env u w)) = sent w ++ page_request u :: rest.
Proof.
  destruct (fetch_ok (respond env (sent w) (page_request u))) as [resp|] eqn:H.
  - destruct (scrape_webpage_run env u w resp H) as (w' & -> & Hs).
    eexists. cbn [snd]. rewrite Hs, <- app_assoc. reflexivity.
  - destruct (scrape_webpage_unreachable env u w H) as (w' & -> & Hs).
    exists []. exact Hs.
Qed.

(** On the image-like route, when the single-image attempt is fetched and
    converted, the call returns that one image and has sent one request:
    the page is not scraped. *)
Theorem image_like_success_returns_single :
  forall (env : Externals) (url : string) (w : World) (resp : Response)
         (b : byte) (r : bytes),
    route url = ImageLikeRoute ->
    fetch_ok (respond env (sent w) (image_request (PyStr.strip url)))
    = Some resp ->
    decoded env (content resp) = Ok (b :: r) ->
    exists w',
      extract_images_from_url env url w = (Ok [b :: r], w')
      /\ sent w' = sent w ++ [image_request (PyStr.strip url)].
Proof.
  intros env url w resp b r Hroute Hfetch Hdec.
  rewrite extract_images_from_url_by_route, Hroute.
  unfold bind at 1, print. unfold bind at 1.
  rewrite download_and_convert_run. cbv zeta. cbn [sent].
  unfold fetch_ok in Hfetch.
  destruct (respond env (sent w) _) as [r0|e]; [|discriminate].
  destruct (raise_for_status r0) as [[]|e]; [|discriminate].
  injection Hfetch as ->. rewrite normalize_run, Hdec. cbn.
  eexists. split; reflexivity.
Qed.

Lemma image_like_success_returns_single_witness :
  route "https://example.com/photo/cat" = ImageLikeRoute
  /\ fetch_ok (respond MoreSamples.photo_env []
                 (image_request "https://example.com/photo/cat"))
     = Some (Samples.image_response [x01; x04; x04])
  /\ decoded MoreSamples.photo_env [x01; x04; x04] = Ok [x03; x04; x04]
  /\ exists w',
       extract_images_from_url MoreSamples.photo_env
         "https://example.com/photo/cat" world0 = (Ok [[x03; x04; x04]], w')
       /\ sent w' = [image_request "https://example.com/photo/cat"].
Proof.
  split; [reflexivity|]. split; [reflexivity|]. split; [reflexivity|].
  exact (image_like_success_returns_single MoreSamples.photo_env
           "https://example.com/photo/cat" world0
           (Samples.image_response [x01; x04; x04]) x03 [x04; x04]
           eq_refl eq_refl eq_refl).
Defined.

(** On the image-like route, when the single-image attempt is fetched but
    yields no image, the call goes on as the web-page route does: its
    outcome is the one of scraping the same URL, which is requested a
    second time, now as a page. *)
Theorem image_like_decode_failure_scrapes :
  forall (env : Externals) (url : string) (w : World) (resp : Response),
    let u := PyStr.strip url in
    route url = ImageLikeRoute ->
    fetch_ok (respond env (sent w) (image_request u)) = Some resp ->
    truthy (result_to_option (decoded env (content resp))) = false ->
    exists w1 rest,
      sent w1 = sent w ++ [image_request u]
      /\ extract_images_from_url env url w = scrape_webpage env u w1
      /\ sent (snd (extract_images_from_url env url w))
         = sent w ++ image_request u :: page_request u :: rest.
Proof.
  intros env url w resp u Hroute Hfetch Hfalsy.
  assert (Heq : exists w1,
             sent w1 = sent w ++ [image_request u]
             /\ extract_images_from_url env url w = scrape_webpage env u w1).
  { rewrite extract_images_from_url_by_route, Hroute. fold u.
    unfold bind, print.
    rewrite download_and_convert_run. cbv zeta. cbn [sent].
    unfold fetch_ok in Hfetch.
    destruct (respond env (sent w) _) as [r0|e]; [|discriminate].
    destruct (raise_for_status r0) as [[]|e]; [|discriminate].
    injection Hfetch as ->. rewrite normalize_run.
    destruct (decoded env (content resp)) as [out|e];
      cbn [result_to_option] in Hfalsy |- *; rewrite ?Hfalsy;
      eexists; (split; [|reflexivity]); reflexivity. }
  destruct Heq as (w1 & Hs1 & Heq).
  destruct (scrape_webpage_first_request env u w1) as (rest & Hs).
  exists w1, rest. split; [exact Hs1|]. split; [exact Heq|].
  rewrite Heq, Hs, Hs1. now rewrite <- app_assoc.
Qed.

Lemma image_like_decode_failure_scrapes_witness :
  route "https://example.com/img/gallery" = ImageLikeRoute
  /\ fetch_ok (respond Samples.sample_env []
                 (image_request "https://example.com/img/gallery"))
     = Some Samples.html_response
  /\ truthy (result_to_option
               (decoded Samples.sample_env (content Samples.html_response)))
     = false
  /\ exists w1 rest,
       sent w1 = [image_request "https://example.com/img/gallery"]
       /\ extract_images_from_url Samples.sample_env
            "https://example.com/img/gallery" world0
          = scrape_webpage Samples.sample_env
              "https://example.com/img/gallery" w1
       /\ sent (snd (extract_images_from_url Samples.sample_env
                       "https://example.com/img/gallery" world0))
          = image_request "https://example.com/img/gallery"
            :: page_request "https://example.com/img/gallery" :: rest.
Proof.
  split; [reflexivity|]. split; [reflexivity|]. split; [reflexivity|].
  exact (image_like_decode_failure_scrapes Samples.sample_env
           "https://example.com/img/gallery" world0 Samples.html_response
           eq_refl eq_refl eq_refl).
Defined.

(* ================================================================== *)
(** ** The console is never read *)

Lemma blind_ret {A} (a : A) : console_blind (ret a).
Proof. intros w. cbn. now rewrite app_nil_r. Qed.

Lemma blind_lift {A} (r : Result A) : console_blind (lift r).
Proof. intros w. cbn. now rewrite app_nil_r. Qed.

Lemma blind_print (l : LogLine) : console_blind (print l).
Proof. intros w. cbn. auto. Qed.

Lemma blind_requests_get (env : Externals) (url : string)
    (timeout : option Z) (headers : list (string * string)) :
  console_blind (requests_get env url timeout headers).
Proof. intros w. cbn. now rewrite app_nil_r. Qed.



Create HintDb blind_db.
#[local] Hint Resolve blind_ret blind_lift blind_print blind_requests_get
  : blind_db.





(* ================================================================== *)
(** ** The command line entry point *)

Lemma classify_loop_run (deps : Cli.Deps) (images : list bytes) :
  forall (i : nat) (s : Cli.Session),
    Cli.classify_loop deps i images s
    = (Ok tt,
       {| Cli.requests := Cli.requests s;
          Cli.console := Cli.console s ++ Cli.report_lines deps i images |}).
Proof.
  induction images as [|img rest IH]; intros i s; simpl.
  - unfold Cli.pret. rewrite app_nil_r. now destruct s.
  - unfold Cli.pbind at 1, Cli.ptry, Cli.pbind at 1, Cli.plift,
      Cli.report_line.
    destruct (Cli.open_rgb (Cli.library deps) img) as [image|e].
    + unfold Cli.pbind at 1.
      destruct (Cli.classify_images_clip deps image) as [label|e];
        unfold Cli.say; rewrite IH; cbn [Cli.requests Cli.console];
        now rewrite <- app_assoc.
    + unfold Cli.say. rewrite IH. cbn [Cli.requests Cli.console].
      now rewrite <- app_assoc.
Qed.

Lemma report_lines_numbers (deps : Cli.Deps) (images : list bytes) :
  forall i,
    map Cli.line_number (Cli.report_lines deps i images)
    = map Some (seq (i + 1) (List.length images)).
Proof.
  induction images as [|img rest IH]; intros i; simpl; [reflexivity|].
  rewrite (IH (S i)). f_equal.
  unfold Cli.report_line.
  destruct (Cli.open_rgb (Cli.library deps) img) as [image|e];
    [|reflexivity].
  now destruct (Cli.classify_images_clip deps image).
Qed.

(** The part of [main] after the images are chosen. *)
Lemma main_report_run (deps : Cli.Deps) (images : list bytes)
    (s : Cli.Session) :
  (Cli.pbind (Cli.say (Cli.FoundCount (List.length images)))
     (fun _ => match images with
               | [] => Cli.say Cli.NoImagesExtracted
               | _ :: _ => Cli.classify_loop deps 0 images
               end)) s
  = (Ok tt,
     {| Cli.requests := Cli.requests s;
        Cli.console :=
          Cli.console s
          ++ Cli.FoundCount (List.length images)
             :: match images with
                | [] => [Cli.NoImagesExtracted]
                | _ :: _ => Cli.report_lines deps 0 images
                end |}).
Proof.
  unfold Cli.pbind, Cli.say at 1.
  destruct images as [|b r].
  - unfold Cli.say. cbn. now rewrite <- app_assoc.
  - rewrite classify_loop_run. cbn [Cli.requests Cli.console].
    now rewrite <- app_assoc.
Qed.

(** Without a PDF argument [main] ends normally, whatever the network,
    the parser, Pillow and the classifier do: an exception that leaves
    [extract_images_from_url] is caught and printed, and so is every
    exception raised while an image is opened or classified. *)
Theorem main_without_pdf_never_raises :
  forall (deps : Cli.Deps) (args : Cli.Args) (s : Cli.Session),
    Cli.given (Cli.arg_pdf args) = false ->
    exists s', Cli.main deps args s = (Ok tt, s').
Proof.
  intros deps args s Hpdf. unfold Cli.main, Cli.choose_images.
  rewrite Hpdf. destruct (Cli.given (Cli.arg_url args)).
  - unfold Cli.pbind at 1. unfold Cli.pbind at 1, Cli.say at 1.
    unfold Cli.ptry, Cli.pbind at 1, Cli.run_module.
    cbn [Cli.requests Cli.console].
    destruct (extract_images_from_url _ _ _) as [[images|e] w'].
    + unfold Cli.pret at 1. rewrite main_report_run. now eexists.
    + cbn. now eexists.
  - cbn. now eexists.
Qed.

Lemma main_without_pdf_never_raises_witness :
  Cli.given None = false
  /\ exists s',
       Cli.main Cli.sample_deps
         {| Cli.arg_pdf := None;
            Cli.arg_url := Some "https://example.com/nothing.png" |}
         Cli.session0 = (Ok tt, s').
Proof.
  split; [reflexivity|].
  exact (main_without_pdf_never_raises Cli.sample_deps
           {| Cli.arg_pdf := None;
              Cli.arg_url := Some "https://example.com/nothing.png" |}
           Cli.session0 eq_refl).
Defined.

(** With a PDF argument, an exception of [extract_images_from_pdf] is not
    caught: it leaves [main], nothing has been printed and no request has
    been sent. *)
Theorem main_pdf_error_escapes :
  forall (deps : Cli.Deps) (args : Cli.Args) (s : Cli.Session) (e : Exn),
    Cli.given (Cli.arg_pdf args) = true ->
    extract_images_from_pdf (Cli.library deps) (Cli.value (Cli.arg_pdf args))
    = Raise e ->
    Cli.main deps args s = (Raise e, s).
Proof.
  intros deps args s e Hpdf Hraise. unfold Cli.main, Cli.choose_images.
  rewrite Hpdf. unfold Cli.pbind, Cli.plift. now rewrite Hraise.
Qed.

Lemma main_pdf_error_escapes_witness :
  Cli.given (Some "missing.pdf") = true
  /\ extract_images_from_pdf (Cli.library Cli.sample_deps) "missing.pdf"
     = Raise FileNotFoundError
  /\ Cli.main Cli.sample_deps
       {| Cli.arg_pdf := Some "missing.pdf"; Cli.arg_url := None |}
       Cli.session0
     = (Raise FileNotFoundError, Cli.session0).
Proof.
  split; [reflexivity|]. split; [reflexivity|].
  exact (main_pdf_error_escapes Cli.sample_deps
           {| Cli.arg_pdf := Some "missing.pdf"; Cli.arg_url := None |}
           Cli.session0 FileNotFoundError eq_refl eq_refl).
Defined.

(** A PDF argument takes precedence over a URL argument: whenever the PDF
    argument is given, [main] sends no request, whatever the URL argument
    is and whatever becomes of the extraction. *)
Theorem main_pdf_sends_nothing :
  forall (deps : Cli.Deps) (args : Cli.Args) (s : Cli.Session),
    Cli.given (Cli.arg_pdf args) = true ->
    Cli.requests (snd (Cli.main deps args s)) = Cli.requests s.
Proof.
  intros deps args s Hpdf. unfold Cli.main, Cli.choose_images.
  rewrite Hpdf. unfold Cli.pbind at 1. unfold Cli.pbind at 1, Cli.plift.
  destruct (extract_images_from_pdf _ _) as [images|e]; [|reflexivity].
  unfold Cli.pret at 1. now rewrite main_report_run.
Qed.

Lemma main_pdf_sends_nothing_witness :
  Cli.given (Some "report.pdf") = true
  /\ Cli.requests
       (snd (Cli.main Cli.sample_deps
               {| Cli.arg_pdf := Some "report.pdf";
                  Cli.arg_url := Some "https://example.com/page.html" |}
               Cli.session0))
     = [].
Proof.
  split; [reflexivity|].
  exact (main_pdf_sends_nothing Cli.sample_deps
           {| Cli.arg_pdf := Some "report.pdf";
              Cli.arg_url := Some "https://example.com/page.html" |}
           Cli.session0 eq_refl).
Defined.

(** With a PDF argument whose extraction returns a list, [main] ends
    normally and prints the count, then, for an empty list, the line that
    nothing was extracted, and otherwise exactly one line per image, a
    label or an error, numbered from 1 in extraction order: an image that
    cannot be opened or classified does not stop the ones after it. *)
Theorem main_pdf_reports_each_image :
  forall (deps : Cli.Deps) (args : Cli.Args) (s : Cli.Session)
         (images : list bytes),
    Cli.given (Cli.arg_pdf args) = true ->
    extract_images_from_pdf (Cli.library deps) (Cli.value (Cli.arg_pdf args))
    = Ok images ->
    Cli.main deps args s
    = (Ok tt,
       {| Cli.requests := Cli.requests s;
          Cli.console :=
            Cli.console s
            ++ Cli.FoundCount (List.length images)
               :: match images with
                  | [] => [Cli.NoImagesExtracted]
                  | _ :: _ => Cli.report_lines deps 0 images
                  end |})
    /\ map Cli.line_number (Cli.report_lines deps 0 images)
       = map Some (seq 1 (List.length images)).
Proof.
  intros deps args s images Hpdf Hok. split.
  - unfold Cli.main, Cli.choose_images. rewrite Hpdf.
    unfold Cli.pbind at 1. unfold Cli.pbind at 1, Cli.plift.
    rewrite Hok. unfold Cli.pret at 1. apply main_report_run.
  - apply (report_lines_numbers deps images 0).
Qed.

Lemma main_pdf_reports_each_image_witness :
  Cli.given (Some "report.pdf") = true
  /\ extract_images_from_pdf (Cli.library Cli.sample_deps) "report.pdf"
     = Ok [[x03; x02; x02]; [x04; x01; x01]; [x01; x09; x09]]
  /\ Cli.main Cli.sample_deps
       {| Cli.arg_pdf := Some "report.pdf"; Cli.arg_url := None |}
       Cli.session0
     = (Ok tt,
        {| Cli.requests := [];
           Cli.console :=
             [Cli.FoundCount 3; Cli.ImageLabel 1 "medical";
              Cli.ImageLabel 2 "medical"; Cli.ImageLabel 3 "non-medical"] |}).
Proof.
  split; [reflexivity|]. split; [reflexivity|].
  exact (proj1 (main_pdf_reports_each_image Cli.sample_deps
                  {| Cli.arg_pdf := Some "report.pdf"; Cli.arg_url := None |}
                  Cli.session0
                  [[x03; x02; x02]; [x04; x01; x01]; [x01; x09; x09]]
                  eq_refl eq_refl)).
Defined.

(** With a URL argument and no PDF argument, when an exception leaves
    [extract_images_from_url], [main] prints it after the lines of the
    module and returns normally: no count is printed and nothing is
    classified. *)
Theorem main_url_error_is_reported :
  forall (deps : Cli.Deps) (args : Cli.Args) (s : Cli.Session)
         (e : Exn) (w' : World),
    Cli.given (Cli.arg_pdf args) = false ->
    Cli.given (Cli.arg_url args) = true ->
    extract_images_from_url (Cli.library deps) (Cli.value (Cli.arg_url args))
      {| sent := Cli.requests s; stdout := [] |}
    = (Raise e, w') ->
    Cli.main deps args s
    = (Ok tt,
       {| Cli.requests := sent w';
          Cli.console :=
            (Cli.console s
             ++ Cli.FetchingFrom (Cli.value (Cli.arg_url args))
                :: map Cli.ModuleLine (stdout w'))
            ++ [Cli.ErrorInsideExtract e] |}).
Proof.
  intros deps args s e w' Hpdf Hurl Hraise.
  unfold Cli.main, Cli.choose_images. rewrite Hpdf, Hurl.
  unfold Cli.pbind at 1. unfold Cli.pbind at 1, Cli.say at 1.
  unfold Cli.ptry, Cli.pbind at 1, Cli.run_module.
  cbn [Cli.requests Cli.console]. rewrite Hraise.
  unfold Cli.pbind, Cli.say, Cli.pret. cbn [Cli.requests Cli.console].
  rewrite <- !app_assoc. reflexivity.
Qed.

Lemma main_url_error_is_reported_witness :
  Cli.given None = false
  /\ Cli.given (Some "https://example.com/nothing.png") = true
  /\ Cli.main Cli.sample_deps
       {| Cli.arg_pdf := None;
          Cli.arg_url := Some "https://example.com/nothing.png" |}
       Cli.session0
     = (Ok tt,
        {| Cli.requests := [image_request "https://example.com/nothing.png"];
           Cli.console :=
             [Cli.FetchingFrom "https://example.com/nothing.png";
              Cli.ModuleLine
                (DirectImageDetected "https://example.com/nothing.png");
              Cli.ErrorInsideExtract (HTTPError 404)] |}).
Proof.
  split; [reflexivity|]. split; [reflexivity|].
  exact (main_url_error_is_reported Cli.sample_deps
           {| Cli.arg_pdf := None;
              Cli.arg_url := Some "https://example.com/nothing.png" |}
           Cli.session0 (HTTPError 404)
           {| sent := [image_request "https://example.com/nothing.png"];
              stdout := [DirectImageDetected
                           "https://example.com/nothing.png"] |}
           eq_refl eq_refl eq_refl).
Defined.

(** With a URL argument and no PDF argument, when
    [extract_images_from_url] returns a list, [main] ends normally; the
    console holds the lines of the module, the count, and then the line
    that nothing was extracted or one numbered line per image, in the
    order of the list. *)
Theorem main_url_reports_each_image :
  forall (deps : Cli.Deps) (args : Cli.Args) (s : Cli.Session)
         (images : list bytes) (w' : World),
    Cli.given (Cli.arg_pdf args) = false ->
    Cli.given (Cli.arg_url args) = true ->
    extract_images_from_url (Cli.library deps) (Cli.value (Cli.arg_url args))
      {| sent := Cli.requests s; stdout := [] |}
    = (Ok images, w') ->
    Cli.main deps args s
    = (Ok tt,
       {| Cli.requests := sent w';
          Cli.console :=
            (Cli.console s
             ++ Cli.FetchingFrom (Cli.value (Cli.arg_url args))
                :: map Cli.ModuleLine (stdout w'))
            ++ Cli.FoundCount (List.length images)
               :: match images with
                  | [] => [Cli.NoImagesExtracted]
                  | _ :: _ => Cli.report_lines deps 0 images
                  end |})
    /\ map Cli.line_number (Cli.report_lines deps 0 images)
       = map Some (seq 1 (List.length images)).
Proof.
  intros deps args s images w' Hpdf Hurl Hok. split.
  - unfold Cli.main, Cli.choose_images. rewrite Hpdf, Hurl.
    unfold Cli.pbind at 1. unfold Cli.pbind at 1, Cli.say at 1.
    unfold Cli.ptry, Cli.pbind at 1, Cli.run_module.
    cbn [Cli.requests Cli.console]. rewrite Hok.
    unfold Cli.pret at 1. rewrite main_report_run.
    cbn [Cli.requests Cli.console]. rewrite <- !app_assoc. reflexivity.
  - apply (report_lines_numbers deps images 0).
Qed.

Lemma main_url_reports_each_image_witness :
  Cli.given (Some "") = false
  /\ Cli.given (Some "https://example.com/page.html") = true
  /\ Cli.main Cli.sample_deps
       {| Cli.arg_pdf := Some "";
          Cli.arg_url := Some "https://example.com/page.html" |}
       Cli.session0
     = (Ok tt,
        {| Cli.requests :=
             [page_request "https://example.com/page.html";
              image_request "https://example.com/a.png";
              image_request "https://cdn.example.com/b.png"];
           Cli.console :=
             [Cli.FetchingFrom "https://example.com/page.html";
              Cli.ModuleLine (FetchingHtml "https://example.com/page.html");
              Cli.ModuleLine (FoundImages 2);
              Cli.FoundCount 2;
              Cli.ImageLabel 1 "medical";
              Cli.ImageLabel 2 "non-medical"] |}).
Proof.
  split; [reflexivity|]. split; [reflexivity|].
  exact (proj1 (main_url_reports_each_image Cli.sample_deps
                  {| Cli.arg_pdf := Some "";
                     Cli.arg_url := Some "https://example.com/page.html" |}
                  Cli.session0
                  [[x03; x02; x02]; [x03; x05; x07]]
                  {| sent :=
                       [page_request "https://example.com/page.html";
                        image_request "https://example.com/a.png";
                        image_request "https://cdn.example.com/b.png"];
                     stdout :=
                       [FetchingHtml "https://example.com/page.html";
                        FoundImages 2] |}
                  eq_refl eq_refl eq_refl)).
Defined.

(* ================================================================== *)
(** ** The single-image evaluation *)

(** When the test image cannot be timed, because the file is missing or
    because opening, converting or classifying it raises,
    [evaluate_single_image_classification] does not return its pair: after
    the accuracy line and the average-time line, both computed from the
    literal [0], the throughput [1/avg_time] raises [ZeroDivisionError],
    which leaves the function. *)
Theorem evaluate_single_zero_division :
  forall (deps : Evaluate.Deps) (st : Evaluate.State deps),
    Evaluate.timed deps "test_images/test image 1.jpg" = false ->
    exists (l : Evaluate.Line deps) (st' : Evaluate.State deps),
      Evaluate.evaluate_single_image_classification deps st
      = (Evaluate.Raised Evaluate.ZeroDivisionError, st')
      /\ Evaluate.printed deps st'
         = Evaluate.printed deps st
           ++ [Evaluate.EvaluatingSingle deps; l;
               Evaluate.SingleImageResults deps;
               Evaluate.AccuracyLine deps 0 0 (Evaluate.IntNum deps 0);
               Evaluate.AverageTimeLine deps (Evaluate.IntNum deps 0)].
Proof.
  intros deps st Htimed. unfold Evaluate.timed in Htimed.
  unfold Evaluate.evaluate_single_image_classification, Evaluate.test_cases,
    Evaluate.cases_loop, Evaluate.rbind, Evaluate.rtry, Evaluate.rlift,
    Evaluate.rprint, Evaluate.now, Evaluate.rret, Evaluate.of_result,
    Evaluate.one_over.
  destruct (Evaluate.path_exists deps _) eqn:Hexists; cbn [negb andb] in *.
  - destruct (Evaluate.Image_open_path deps _) as [img|e].
    + destruct (Evaluate.Image_convert deps img ModeRGB) as [rgb|e].
      * destruct (Evaluate.classify_images_clip deps rgb) as [label|e] eqn:Hc;
          [discriminate|].
        cbn. rewrite ?Hc. cbn.
        do 2 eexists. split; [reflexivity|]. cbn.
        rewrite <- !app_assoc. reflexivity.
      * cbn. do 2 eexists. split; [reflexivity|]. cbn.
        rewrite <- !app_assoc. reflexivity.
    + cbn. do 2 eexists. split; [reflexivity|]. cbn.
      rewrite <- !app_assoc. reflexivity.
  - cbn. do 2 eexists. split; [reflexivity|]. cbn.
    rewrite <- !app_assoc. reflexivity.
Qed.

Lemma evaluate_single_zero_division_witness :
  Evaluate.timed Evaluate.empty_disk "test_images/test image 1.jpg" = false
  /\ exists l st',
       Evaluate.evaluate_single_image_classification Evaluate.empty_disk
         (Evaluate.state0 Evaluate.empty_disk)
       = (Evaluate.Raised Evaluate.ZeroDivisionError, st')
       /\ Evaluate.printed Evaluate.empty_disk st'
          = [Evaluate.EvaluatingSingle Evaluate.empty_disk; l;
             Evaluate.SingleImageResults Evaluate.empty_disk;
             Evaluate.AccuracyLine Evaluate.empty_disk 0 0
               (Evaluate.IntNum Evaluate.empty_disk 0);
             Evaluate.AverageTimeLine Evaluate.empty_disk
               (Evaluate.IntNum Evaluate.empty_disk 0)].
Proof.
  split; [reflexivity|].
  exact (evaluate_single_zero_division Evaluate.empty_disk
           (Evaluate.state0 Evaluate.empty_disk) eq_refl).
Defined.

(** When the test image is timed and the mean of the one measured time is
    not zero, the function returns: the clock has been read twice, the
    average is the mean of the difference of the two readings, and the
    accuracy is a computed percentage over one case. *)
Theorem evaluate_single_returns :
  forall (deps : Evaluate.Deps) (st : Evaluate.State deps),
    let elapsed :=
      Evaluate.float_sub deps
        (Evaluate.time_time deps (S (Evaluate.clock_reads deps st)))
        (Evaluate.time_time deps (Evaluate.clock_reads deps st)) in
    Evaluate.timed deps "test_images/test image 1.jpg" = true ->
    Evaluate.float_is_zero deps (Evaluate.statistics_mean deps [elapsed])
    = false ->
    exists (correct : Z) (st' : Evaluate.State deps),
      Evaluate.evaluate_single_image_classification deps st
      = (Evaluate.Returned
           (Evaluate.FloatNum deps (Evaluate.percentage deps correct 1),
            Evaluate.FloatNum deps (Evaluate.statistics_mean deps [elapsed])),
         st')
      /\ (correct = 0 \/ correct = 1)%Z
      /\ Evaluate.clock_reads deps st' = S (S (Evaluate.clock_reads deps st)).
Proof.
  intros deps st elapsed Htimed Hmean. unfold Evaluate.timed in Htimed.
  unfold Evaluate.evaluate_single_image_classification, Evaluate.test_cases,
    Evaluate.cases_loop, Evaluate.rbind, Evaluate.rtry, Evaluate.rlift,
    Evaluate.rprint, Evaluate.now, Evaluate.rret, Evaluate.of_result,
    Evaluate.one_over.
  destruct (Evaluate.path_exists deps _) eqn:Hexists; [|discriminate].
  cbn [negb andb] in *.
  destruct (Evaluate.Image_open_path deps _) as [img|e]; [|discriminate].
  destruct (Evaluate.Image_convert deps img ModeRGB) as [rgb|e];
    [|discriminate].
  destruct (Evaluate.classify_images_clip deps rgb) as [label|e] eqn:Hc;
    [|discriminate].
  cbn. rewrite ?Hc. cbn. fold elapsed. rewrite Hmean. cbn.
  destruct (String.eqb label "medical"); do 2 eexists;
    (split; [reflexivity|]); split; auto.
Qed.

Lemma evaluate_single_returns_witness :
  Evaluate.timed Evaluate.with_image "test_images/test image 1.jpg" = true
  /\ exists correct st',
       Evaluate.evaluate_single_image_classification Evaluate.with_image
         (Evaluate.state0 Evaluate.with_image)
       = (Evaluate.Returned
            (Evaluate.FloatNum Evaluate.with_image
               (Evaluate.percentage Evaluate.with_image correct 1),
             Evaluate.FloatNum Evaluate.with_image 250%Z),
          st')
       /\ (correct = 0 \/ correct = 1)%Z
       /\ Evaluate.clock_reads Evaluate.with_image st' = 2.
Proof.
  split; [reflexivity|].
  exact (evaluate_single_returns Evaluate.with_image
           (Evaluate.state0 Evaluate.with_image) eq_refl eq_refl).
Defined.

(* ================================================================== *)
(** ** A failed fetch on the single-image routes, on an example *)

Lemma single_image_fetch_failure_raises_witness :
  (is_direct_link (PyStr.strip "https://example.com/img/gallery") = true
   \/ is_image_like (PyStr.strip "https://example.com/img/gallery") = true)
  /\ respond Samples.flaky_env []
       (image_request "https://example.com/img/gallery") = Raise ReadTimeout
  /\ fst (extract_images_from_url Samples.flaky_env
            "https://example.com/img/gallery" world0) = Raise ReadTimeout.
Proof.
  split; [right; reflexivity|]. split; [reflexivity|].
  exact (single_image_fetch_failure_raises Samples.flaky_env
           "https://example.com/img/gallery" world0 ReadTimeout
           (or_intror eq_refl) eq_refl).
Defined.
